(** * BestEmployerStockAnalysis: a shallow embedding and its properties

    The script [BestEmployerStockAnalysis.py] scrapes two employer
    rankings, resolves every company name to a ticker ([get_ticker]),
    fetches its metrics with bounded retries ([get_stock_info]), joins
    the records back to the two rankings, and offers a strategy filter
    over the resulting table ([filter_by_strategy]).

    Python values are embedded as an inductive [pyval]; dictionaries are
    [gmap string pyval]; the outside world (HTTP services, the random
    generator) is an [environment] of oracles that may depend on the
    whole history of events; every function that performs I/O threads
    that history and may raise. *)

From Stdlib Require Import Ascii String QArith Lqa.
From stdpp Require Import gmap strings list fin_maps sorting.

Set Warnings "-register-all".

Local Open Scope string_scope.
Local Open Scope list_scope.
Local Open Scope Z_scope.

(** ** Strings *)

(** [str.lower()].  Strings are byte sequences (UTF-8); only the ASCII
    capitals are mapped.  For the comparisons made in this program the
    result agrees with Python's Unicode lowering: the literals compared
    against ("defensive", "cyclical", "growth", "s", "'s", "’s") have no
    "k", and apart from the Kelvin sign (which lowers to "k") the only
    code points that lower to an ASCII letter or to one of the two
    apostrophes are that character and its ASCII capital. *)
Definition ascii_lower (c : ascii) : ascii :=
  let n := nat_of_ascii c in
  if ((65 <=? n) && (n <=? 90))%nat then ascii_of_nat (n + 32) else c.

Fixpoint py_lower (s : string) : string :=
  match s with
  | EmptyString => EmptyString
  | String c s' => String (ascii_lower c) (py_lower s')
  end.

(** ** Name normalizer (get_forbes_employers, lines 68-103) *)

Module Normalizer.

(** [list(dict.fromkeys(companies))]: first occurrences, in order. *)
Definition dict_fromkeys (companies : list string) : list string :=
  fold_left (fun keys name => if decide (name ∈ keys) then keys else keys ++ [name])
            companies [].

(** The literal list on line 84. *)
Definition apostrophe_variants : list string := ["s"; "'s"; "’s"].

(** One iteration of the loop on lines 76-89.  The state is
    [(fixed_companies, skip_next)]; [None] stands for an [IndexError]. *)
Definition fix_step (unique_companies : list string)
    (st : list string * bool) (i : nat) : option (list string * bool) :=
  let '(fixed_companies, skip_next) := st in
  if skip_next then Some (fixed_companies, false)
  else
    current ← unique_companies !! i;
    if bool_decide (i + 1 < length unique_companies)%nat then
      next ← unique_companies !! (i + 1)%nat;
      if bool_decide (py_lower next ∈ apostrophe_variants)
      then Some (fixed_companies ++ [current +:+ "'s"], true)
      else Some (fixed_companies ++ [current], false)
    else Some (fixed_companies ++ [current], false).

(** [for i in range(len(unique_companies))]. *)
Fixpoint fix_loop (unique_companies : list string) (indices : list nat)
    (st : list string * bool) : option (list string * bool) :=
  match indices with
  | [] => Some st
  | i :: rest =>
      st' ← fix_step unique_companies st i;
      fix_loop unique_companies rest st'
  end.

Definition fix_apostrophes (unique_companies : list string) : option (list string) :=
  fst <$> fix_loop unique_companies (seq 0 (length unique_companies)) ([], false).

(** Lines 69-103: dedup, repair, keep the first hundred. *)
Definition normalize (companies : list string) : option (list string) :=
  take 100 <$> fix_apostrophes (dict_fromkeys companies).

(** The repair pass as the specification words it: look one position
    ahead; a fragment is merged into the name before it and dropped. *)
Definition is_fragment (s : string) : bool :=
  bool_decide (py_lower s ∈ apostrophe_variants).

Fixpoint merge_fragments (names : list string) : list string :=
  match names with
  | [] => []
  | name :: tl =>
      match tl with
      | fragment :: rest =>
          if is_fragment fragment
          then (name +:+ "'s") :: merge_fragments rest
          else name :: merge_fragments tl
      | [] => [name]
      end
  end.

End Normalizer.

(** ** Python values *)

Inductive pyval : Type :=
| PyNone
| PyBool (b : bool)
| PyInt (z : Z)
| PyFloat (q : Q)
| PyStr (s : string)
| PyList (items : list pyval)
| PyDict (d : gmap string pyval).

(** [bool(v)], as used by [if v:]. *)
Definition truthy (v : pyval) : bool :=
  match v with
  | PyNone => false
  | PyBool b => b
  | PyInt z => negb (z =? 0)
  | PyFloat q => negb (Qeq_bool q 0)
  | PyStr s => negb (String.eqb s "")
  | PyList items => match items with [] => false | _ => true end
  | PyDict d => negb (Nat.eqb (size d) 0)
  end.

Definition type_name (v : pyval) : string :=
  match v with
  | PyNone => "NoneType"
  | PyBool _ => "bool"
  | PyInt _ => "int"
  | PyFloat _ => "float"
  | PyStr _ => "str"
  | PyList _ => "list"
  | PyDict _ => "dict"
  end.

(** [v == "literal"] for a string literal. *)
Definition eq_str (v : pyval) (lit : string) : bool :=
  match v with
  | PyStr s => String.eqb s lit
  | _ => false
  end.

(** ** Exceptions *)

(** The classes this program can meet.  The [requests] errors are the
    subclasses of [requests.exceptions.RequestException]; the JSON decode
    error raised by [Response.json()] is one of them. *)
Inductive requests_error := ConnectionError | Timeout | HTTPError | JSONDecodeError | OtherRequestError.

Inductive exn_class :=
| RequestException (k : requests_error)
| ValueError
| OverflowError
| TypeError
| AttributeError
| KeyError
| OtherException.

Record exn := Exn { exn_class_of : exn_class; exn_str : string }.

Definition is_RequestException (e : exn) : bool :=
  match exn_class_of e with
  | RequestException _ => true
  | _ => false
  end.

Inductive outcome (A : Type) : Type :=
| Returned (a : A)
| Raised (e : exn).
Arguments Returned {A} a.
Arguments Raised {A} e.

#[global] Instance outcome_ret : MRet outcome := fun _ a => Returned a.
#[global] Instance outcome_bind : MBind outcome := fun _ _ k m =>
  match m with
  | Returned a => k a
  | Raised e => Raised e
  end.

(** [obj.get(key)] and [obj.get(key, default)]: only dictionaries have
    the method. *)
Definition py_get (obj : pyval) (key : string) (dflt : pyval) : outcome pyval :=
  match obj with
  | PyDict d => Returned (default dflt (d !! key))
  | _ => Raised (Exn AttributeError
                   ("'" +:+ type_name obj +:+ "' object has no attribute 'get'"))
  end.

(** The items a [for] loop visits. *)
Definition chars (s : string) : list pyval :=
  (fun c => PyStr (String c EmptyString)) <$> list_ascii_of_string s.

Definition py_iter (obj : pyval) : outcome (list pyval) :=
  match obj with
  | PyList items => Returned items
  | PyStr s => Returned (chars s)
  | PyDict d => Returned (PyStr <$> (map_to_list d).*1)
  | _ => Raised (Exn TypeError ("'" +:+ type_name obj +:+ "' object is not iterable"))
  end.

(** ** Tables *)

(** A row of the enriched table: the fields [get_stock_info] fills, each
    one absent ([None], which pandas shows as NaN) or present.  Numbers
    are rationals. *)
Record stock_record := StockRecord {
  col_Ticker : option string;
  col_Name : option string;
  col_Sector : option string;
  col_Industry : option string;
  col_Price : option Q;
  col_Market_Cap : option Q;
  col_PE_Ratio : option Q;
  col_Error : option string
}.

(** A [pandas.DataFrame] of stock records.  [NoColumns] is what
    [pd.DataFrame()] builds (no columns, no rows); [Frame rows] has the
    columns of [stock_record] and keeps, with every row, its index label. *)
Inductive DataFrame :=
| NoColumns
| Frame (rows : list (nat * stock_record)).

Definition df_rows (df : DataFrame) : list (nat * stock_record) :=
  match df with
  | NoColumns => []
  | Frame rows => rows
  end.

(** [df.empty]: some axis has length zero. *)
Definition df_empty (df : DataFrame) : bool :=
  match df_rows df with [] => true | _ => false end.

(** ** Effects *)

(** What [print] writes, kept structured. *)
Inductive message :=
| MsgRetrying (ticker : pyval) (attempt retries : Z) (error_message : string) (current_delay : Q)
| MsgFailed (ticker : pyval) (retries : Z) (error_message : string)
| MsgUnknownStrategy (strategy_type : string)
| MsgPartialData (company_name : string) (ticker : pyval) (error : pyval)
| MsgFinished
| MsgPrepared (sheet : string) (n : nat).

Inductive event :=
| HttpGetJson (url user_agent : string)
| YfInfo (ticker : pyval)
| Sleep (seconds : Q)
| Print (m : message).

(** A number in [[0, 1)], the range of [random.random()]. *)
Record unit_interval := UnitInterval {
  u_val : Q;
  u_range : Qle_bool 0 u_val && negb (Qle_bool 1 u_val) = true
}.

(** The world outside the program.  Every answer may depend on all that
    happened before. *)
Record environment := Environment {
  (** [requests.get(url, headers, timeout=5).json()] *)
  requests_get_json : list event -> string -> string -> outcome pyval;
  (** [yf.Ticker(ticker).info] *)
  yf_ticker_info : list event -> pyval -> outcome pyval;
  (** [random.random()] *)
  random_random : list event -> unit_interval;
  (** [random.randrange(n)] behind [random.choice] *)
  random_below : list event -> nat -> nat;
  (** [str(v)] of a value that is not a string *)
  str_of_other : pyval -> string;
  (** [list(s)]: the order in which a set of strings is iterated *)
  list_of_set : gset string -> list string
}.

(** A set is iterated once through each of its elements. *)
Definition iterates_sets (E : environment) : Prop :=
  forall X : gset string, list_of_set E X ≡ₚ elements X.

(** The state a function runs in: its mutable locals, the objects on the
    heap (data frames, by identity), and the events so far. *)
Record state (L : Type) := State {
  locals : L;
  heap : gmap nat DataFrame;
  history : list event
}.
Arguments State {L} _ _ _.
Arguments locals {L} _.
Arguments heap {L} _.
Arguments history {L} _.

(** Computations: run from a state, return or raise, leave a state.  An
    exception keeps the state reached when it was raised. *)
Definition M (L A : Type) : Type := state L -> outcome A * state L.

#[global] Instance M_ret {L} : MRet (M L) := fun _ a s => (Returned a, s).
#[global] Instance M_bind {L} : MBind (M L) := fun _ _ k m s =>
  match m s with
  | (Returned a, s') => k a s'
  | (Raised e, s') => (Raised e, s')
  end.

Definition raise {L A} (e : exn) : M L A := fun s => (Raised e, s).

Definition lift {L A} (o : outcome A) : M L A := fun s => (o, s).

(** [try: body except <classes>: handler]. *)
Definition try_except {L A} (body : M L A) (catches : exn -> bool)
    (handler : exn -> M L A) : M L A := fun s =>
  match body s with
  | (Raised e, s') => if catches e then handler e s' else (Raised e, s')
  | r => r
  end.

Definition get_locals {L} : M L L := fun s => (Returned (locals s), s).
Definition set_locals {L} (l : L) : M L unit := fun s =>
  (Returned tt, State l (heap s) (history s)).
Definition get_history {L} : M L (list event) := fun s => (Returned (history s), s).
Definition emit {L} (ev : event) : M L unit := fun s =>
  (Returned tt, State (locals s) (heap s) (history s ++ [ev])).

(** A call: the callee has locals of its own and shares heap and history. *)
Definition call {L L' A} (init : L') (callee : M L' A) : M L A := fun s =>
  let '(r, s') := callee (State init (heap s) (history s)) in
  (r, State (locals s) (heap s') (history s')).

Definition print {L} (m : message) : M L unit := emit (Print m).

(** [time.sleep(seconds)] first turns the length into nanoseconds held
    in a signed 64-bit integer, and refuses a length that does not fit;
    then it refuses a negative length.  The lengths of this program are
    floats; they are taken as the rationals they stand for, so neither
    the rounding of a length next to the limit nor an infinite or
    undefined length is told apart here. *)
Definition sleep_limit : Q := 9223372036854775808 # 1000000000.

Definition time_sleep {L} (seconds : Q) : M L unit :=
  if Qle_bool sleep_limit seconds || negb (Qle_bool (- sleep_limit) seconds)
  then raise (Exn OverflowError "timestamp too large to convert to C _PyTime_t")
  else if Qle_bool 0 seconds then emit (Sleep seconds)
  else raise (Exn ValueError "sleep length must be non-negative").

Abbreviation dict := (gmap string pyval).

(** [d[key]] *)
Definition getitem (d : dict) (key : string) : outcome pyval :=
  match d !! key with
  | Some v => Returned v
  | None => Raised (Exn KeyError ("'" +:+ key +:+ "'"))
  end.

Definition USER_AGENTS : list string :=
  [ "Mozilla/5.0 (Windows NT 10.0; Win64; x64)";
    "Mozilla/5.0 (Macintosh; Intel Mac OS X 10_15_7)";
    "Mozilla/5.0 (X11; Linux x86_64)";
    "Mozilla/5.0 (iPhone; CPU iPhone OS 14_0 like Mac OS X)" ].

(** The f-string on line 171. *)
Definition search_url (company_name : string) : string :=
  "https://query2.finance.yahoo.com/v1/finance/search?q=" +:+ company_name.

Section Program.

Context (E : environment).

(** [str(v)], as an f-string formats a value. *)
Definition py_str (v : pyval) : string :=
  match v with
  | PyStr s => s
  | _ => str_of_other E v
  end.

(** [random.uniform(a, b)] is [a + (b - a) * random()]. *)
Definition random_uniform {L} (a b : Q) : M L Q :=
  h ← get_history;
  mret (a + (b - a) * u_val (random_random E h))%Q.

(** [random.choice(seq)] *)
Definition random_choice {L} (seq : list string) : M L string :=
  h ← get_history;
  match seq !! (random_below E h (length seq) mod length seq)%nat with
  | Some x => mret x
  | None => raise (Exn OtherException "Cannot choose from an empty sequence")
  end.

Definition requests_get {L} (url user_agent : string) : M L pyval :=
  h ← get_history;
  emit (HttpGetJson url user_agent);;
  lift (requests_get_json E h url user_agent).

Definition yf_info {L} (ticker : pyval) : M L pyval :=
  h ← get_history;
  emit (YfInfo ticker);;
  lift (yf_ticker_info E h ticker).

(** *** get_ticker (lines 165-181) *)

(** The loop on lines 175-177; [Some symbol] is the [return] inside it,
    [None] is falling out of the loop. *)
Fixpoint scan_quotes (results : list pyval) : outcome (option pyval) :=
  match results with
  | [] => Returned None
  | result :: rest =>
      quoteType ← py_get result "quoteType" PyNone;
      if eq_str quoteType "EQUITY"
      then symbol ← py_get result "symbol" PyNone; Returned (Some symbol)
      else scan_quotes rest
  end.

Definition get_ticker (company_name : string) : M unit pyval :=
  user_agent ← random_choice USER_AGENTS;
  let url := search_url company_name in
  found ← try_except
    (res ← requests_get url user_agent;
     quotes ← lift (py_get res "quotes" (PyList []));
     results ← lift (py_iter quotes);
     lift (scan_quotes results))
    is_RequestException
    (fun e => mret None);
  match found with
  | Some symbol => mret symbol
  | None => mret PyNone
  end.

(** *** get_stock_info (lines 183-253) *)

Definition info_init (ticker : pyval) : dict :=
  <["Error" := PyNone]> (<["PE Ratio" := PyNone]> (<["Market Cap" := PyNone]>
  (<["Price" := PyNone]> (<["Industry" := PyNone]> (<["Sector" := PyNone]>
  (<["Name" := PyNone]> (<["Ticker" := ticker]> ∅))))))).

(** [info_to_return[key] = v] *)
Definition setitem (key : string) (v : pyval) : M dict unit :=
  d ← get_locals; set_locals (<[key := v]> d).

(** [info_to_return[key] = info.get(source)] *)
Definition copy_field (info : pyval) (key source : string) : M dict unit :=
  v ← lift (py_get info source PyNone); setitem key v.

(** The [try] block, lines 216-235.  [Some d] is [return info_to_return]. *)
Definition try_block (ticker : pyval) : M dict (option dict) :=
  info ← yf_info ticker;
  copy_field info "Name" "shortName";;
  copy_field info "Sector" "sector";;
  copy_field info "Industry" "industry";;
  copy_field info "Price" "currentPrice";;
  copy_field info "Market Cap" "marketCap";;
  copy_field info "PE Ratio" "trailingPE";;
  d ← get_locals;
  name ← lift (getitem d "Name");
  if truthy name then
    setitem "Error" PyNone;;
    d ← get_locals; mret (Some d)
  else
    raise (Exn ValueError ("Minimal info (Name) not received for " +:+ py_str ticker)).

(** The [except Exception as e] block, lines 237-248. *)
Definition except_block (ticker : pyval) (retries : Z) (min_delay max_delay : Q)
    (attempt : Z) (e : exn) : M dict (option dict) :=
  let error_message := exn_str e in
  setitem "Error" (PyStr error_message);;
  if attempt <? retries - 1 then
    current_delay ← random_uniform min_delay max_delay;
    print (MsgRetrying ticker (attempt + 1) retries error_message current_delay);;
    time_sleep current_delay;;
    mret None
  else
    print (MsgFailed ticker retries error_message);;
    d ← get_locals; mret (Some d).

(** One iteration of the loop: [try: ... except Exception as e: ...]. *)
Definition attempt_once (ticker : pyval) (retries : Z) (min_delay max_delay : Q)
    (attempt : Z) : M dict (option dict) :=
  try_except (try_block ticker) (fun _ => true)
    (except_block ticker retries min_delay max_delay attempt).

(** [for attempt in range(retries)], over the attempts left. *)
Fixpoint attempt_loop (ticker : pyval) (retries : Z) (min_delay max_delay : Q)
    (attempts : list Z) : M dict (option dict) :=
  match attempts with
  | [] => mret None
  | attempt :: rest =>
      r ← attempt_once ticker retries min_delay max_delay attempt;
      match r with
      | Some d => mret (Some d)
      | None => attempt_loop ticker retries min_delay max_delay rest
      end
  end.

(** [range(n)] *)
Definition range (n : Z) : list Z := Z.of_nat <$> seq 0 (Z.to_nat n).

Definition get_stock_info_body (ticker : pyval) (retries : Z)
    (min_delay max_delay : Q) : M dict dict :=
  r ← attempt_loop ticker retries min_delay max_delay (range retries);
  match r with
  | Some d => mret d
  | None =>
      d ← get_locals;
      error ← lift (py_get (PyDict d) "Error" (PyStr "Unknown error after all retries."));
      setitem "Error" error;;
      get_locals
  end.

Definition get_stock_info {L} (ticker : pyval) (retries : Z)
    (min_delay max_delay : Q) : M L dict :=
  call (info_init ticker) (get_stock_info_body ticker retries min_delay max_delay).

End Program.

(** ** filter_by_strategy (lines 256-302) *)

Definition Qlt_bool (a b : Q) : bool := negb (Qle_bool b a).

Abbreviation indexed_row := (nat * stock_record)%type.

(** [df[name]]: the cells of one column, in row order. *)
Definition column {A} (cell : stock_record -> A) (name : string) (df : DataFrame)
    : outcome (list A) :=
  match df with
  | Frame rows => Returned ((fun r : indexed_row => cell r.2) <$> rows)
  | NoColumns => Raised (Exn KeyError ("'" +:+ name +:+ "'"))
  end.

(** [series.isin(values)]; an absent cell is in no list of strings. *)
Definition isin (values : list string) (series : list (option string)) : list bool :=
  (fun c => match c with Some s => bool_decide (s ∈ values) | None => false end) <$> series.

(** [series.notna()] *)
Definition notna {A} (series : list (option A)) : list bool :=
  (fun c => match c with Some _ => true | None => false end) <$> series.

(** [series < x] and [series > x]; a comparison with NaN is false. *)
Definition series_lt (series : list (option Q)) (x : Q) : list bool :=
  (fun c => match c with Some q => Qlt_bool q x | None => false end) <$> series.
Definition series_gt (series : list (option Q)) (x : Q) : list bool :=
  (fun c => match c with Some q => Qlt_bool x q | None => false end) <$> series.

(** [mask1 & mask2] *)
Definition mask_and (m1 m2 : list bool) : list bool := zip_with andb m1 m2.

(** The rows of [df[mask]]. *)
Definition select_rows (rows : list indexed_row) (mask : list bool) : list indexed_row :=
  fst <$> filter (fun rm : indexed_row * bool => rm.2 = true) (zip rows mask).

(** numpy's sort of keyed items is left abstract: it returns its input
    in non-decreasing key order, and says nothing on the order of ties. *)
Abbreviation keyed_row := (Q * indexed_row)%type.

Definition key_le (a b : keyed_row) : Prop := (a.1 <= b.1)%Q.

Definition sorts (np_sort : list keyed_row -> list keyed_row) : Prop :=
  forall l, np_sort l ≡ₚ l /\ Sorted key_le (np_sort l).

(** The rows of [df.sort_values(by=..., ascending=...)], as pandas'
    [nargsort] orders them: the rows with a key sorted (for a descending
    order: reversed, sorted, reversed again), then the rows without. *)
Definition with_key (by_ : stock_record -> option Q) (r : indexed_row) : option keyed_row :=
  k ← by_ r.2; Some (k, r).

Definition sorted_rows (np_sort : list keyed_row -> list keyed_row)
    (by_ : stock_record -> option Q) (ascending : bool)
    (rows : list indexed_row) : list indexed_row :=
  let non_nans := omap (with_key by_) rows in
  let nans := filter (fun r : indexed_row => by_ r.2 = None) rows in
  let indexer :=
    if ascending then np_sort non_nans
    else reverse (np_sort (reverse non_nans)) in
  indexer.*2 ++ nans.

Definition defensive_sectors : list string :=
  ["Healthcare"; "Utilities"; "Consumer Defensive"; "Communication Services"].
Definition cyclical_sectors : list string :=
  ["Industrials"; "Consumer Cyclical"; "Financial Services"; "Real Estate"; "Basic Materials"].
Definition growth_sectors : list string :=
  ["Technology"; "Communication Services"; "Healthcare"; "Industrials"].

Section Filter.

Context (np_sort : list keyed_row -> list keyed_row).

(** A new object on the heap. *)
Definition alloc {L} (df : DataFrame) : M L nat := fun s =>
  let l := fresh (dom (heap s)) in
  (Returned l, State (locals s) (<[l := df]> (heap s)) (history s)).

Definition deref {L} (l : nat) : M L DataFrame := fun s =>
  match heap s !! l with
  | Some df => (Returned df, s)
  | None => (Raised (Exn OtherException "dangling reference"), s)
  end.

(** [df[mask]]: a new frame. *)
Definition getitem_mask {L} (df : DataFrame) (mask : list bool) : M L nat :=
  match df with
  | Frame rows => alloc (Frame (select_rows rows mask))
  | NoColumns => alloc NoColumns
  end.

(** [df.sort_values(by=name, ascending=...)]: a new frame. *)
Definition sort_values {L} (df : nat) (by_ : stock_record -> option Q) (name : string)
    (ascending : bool) : M L nat :=
  frame ← deref df;
  match frame with
  | Frame rows => alloc (Frame (sorted_rows np_sort by_ ascending rows))
  | NoColumns => raise (Exn KeyError ("'" +:+ name +:+ "'"))
  end.

Definition filter_by_strategy (df : nat) (strategy_type : string) : M unit nat :=
  frame ← deref df;
  if df_empty frame then alloc NoColumns
  else
    filtered_df ← alloc NoColumns;
    if String.eqb (py_lower strategy_type) "defensive" then
      sector ← lift (column col_Sector "Sector" frame);
      pe1 ← lift (column col_PE_Ratio "PE Ratio" frame);
      pe2 ← lift (column col_PE_Ratio "PE Ratio" frame);
      selected ← getitem_mask frame
        (mask_and (mask_and (isin defensive_sectors sector) (notna pe1)) (series_lt pe2 20));
      sort_values selected col_PE_Ratio "PE Ratio" true
    else if String.eqb (py_lower strategy_type) "cyclical" then
      sector ← lift (column col_Sector "Sector" frame);
      cap ← lift (column col_Market_Cap "Market Cap" frame);
      selected ← getitem_mask frame
        (mask_and (isin cyclical_sectors sector) (notna cap));
      sort_values selected col_Market_Cap "Market Cap" false
    else if String.eqb (py_lower strategy_type) "growth" then
      sector ← lift (column col_Sector "Sector" frame);
      pe1 ← lift (column col_PE_Ratio "PE Ratio" frame);
      pe2 ← lift (column col_PE_Ratio "PE Ratio" frame);
      selected ← getitem_mask frame
        (mask_and (mask_and (isin growth_sectors sector) (notna pe1)) (series_gt pe2 25));
      sort_values selected col_PE_Ratio "PE Ratio" false
    else
      print (MsgUnknownStrategy strategy_type);;
      mret df.

End Filter.

(** ** The main block (lines 316-395) *)

(** A data frame of Python records: column labels, and rows with their
    index labels. *)
Record table := Table {
  t_columns : list string;
  t_rows : list (nat * dict)
}.

(** The keys of a record built by [get_stock_info] and completed on
    line 340, in insertion order. *)
Definition record_columns : list string :=
  ["Ticker"; "Name"; "Sector"; "Industry"; "Price"; "Market Cap"; "PE Ratio"; "Error";
   "Original Company Name"].

(** [pd.DataFrame(records)] for records that all have the keys above;
    none at all gives a frame without columns. *)
Definition DataFrame_of_records (records : list dict) : table :=
  match records with
  | [] => Table [] []
  | _ => Table record_columns (imap (fun i r => (i, r)) records)
  end.

(** Lines 365-367: [if col not in df.columns: df[col] = None]. *)
Definition add_missing_column (df : table) (col : string) : table :=
  if bool_decide (col ∈ t_columns df) then df
  else Table (t_columns df ++ [col])
             ((fun r : nat * dict => (r.1, <[col := PyNone]> r.2)) <$> t_rows df).

(** [df[cols]] for a list of labels: every row keeps the cells under
    those labels (an absent cell reads as [None]). *)
Definition project (cols : list string) (r : dict) : dict :=
  list_to_map ((fun c => (c, default PyNone (r !! c))) <$> cols).

Definition select_columns (df : table) (cols : list string) : outcome table :=
  match filter (fun c => c ∉ t_columns df) cols with
  | [] => Returned (Table cols ((fun r : nat * dict => (r.1, project cols r.2)) <$> t_rows df))
  | missing :: _ => Raised (Exn KeyError ("'" +:+ missing +:+ "' not in index"))
  end.

(** [df[label].isin(values)] *)
Definition cell_isin (values : string -> bool) (cell : pyval) : bool :=
  match cell with
  | PyStr s => values s
  | _ => false
  end.

Definition column_isin (df : table) (label : string) (values : string -> bool)
    : outcome (list bool) :=
  if bool_decide (label ∈ t_columns df)
  then Returned ((fun r : nat * dict => cell_isin values (default PyNone (r.2 !! label)))
                 <$> t_rows df)
  else Raised (Exn KeyError ("'" +:+ label +:+ "'")).

(** [df[mask]] *)
Definition table_getitem_mask (df : table) (mask : list bool) : table :=
  Table (t_columns df)
        (fst <$> filter (fun rm : (nat * dict) * bool => rm.2 = true) (zip (t_rows df) mask)).

Definition excel_output_cols : list string :=
  ["Name"; "Ticker"; "PE Ratio"; "Price"; "Sector"; "Industry"; "Market Cap";
   "Original Company Name"].

Definition output_cols_for_sheets : list string :=
  ["Name"; "Ticker"; "PE Ratio"; "Price"; "Sector"].

Section Main.

Context (E : environment).

(** The body of the loop on lines 332-353; the local is [all_stock_data]. *)
Definition process_company (company_name : string) : M (list dict) unit :=
  ticker ← call tt (get_ticker E company_name);
  (if truthy ticker then
     info ← get_stock_info E ticker 3 3 8;
     let info := <["Original Company Name" := PyStr company_name]> info in
     all_stock_data ← get_locals;
     set_locals (all_stock_data ++ [info]);;
     error ← lift (getitem info "Error");
     if truthy error
     then print (MsgPartialData company_name ticker error)
     else mret tt
   else mret tt);;
  sleep_time ← random_uniform E 3 8;
  time_sleep sleep_time.

Fixpoint main_loop (companies : list string) : M (list dict) unit :=
  match companies with
  | [] => mret tt
  | company_name :: rest => process_company company_name;; main_loop rest
  end.

(** One sheet, before and after the display columns are selected:
    [all_stock_data_df[all_stock_data_df['Original Company Name'].isin(names)]]
    and then [[output_cols_for_sheets]]. *)
Definition sheet_rows (all_stock_data_df : table) (names : string -> bool) : outcome table :=
  mask ← column_isin all_stock_data_df "Original Company Name" names;
  Returned (table_getitem_mask all_stock_data_df mask).

Definition sheet (all_stock_data_df : table) (names : string -> bool) : outcome table :=
  selected ← sheet_rows all_stock_data_df names;
  select_columns selected output_cols_for_sheets.

Record report := Report {
  all_stock_data : list dict;
  all_stock_data_df : table;
  forbes_final_df : table;
  greatplaces_final_df : table;
  common_final_df : table
}.

Definition main (forbes_companies_list greatplaces_companies_list : list string)
    : M unit report :=
  let common_companies : gset string :=
    list_to_set forbes_companies_list ∩ list_to_set greatplaces_companies_list in
  let all_unique_companies : gset string :=
    list_to_set forbes_companies_list ∪ list_to_set greatplaces_companies_list in
  records ← call [] (main_loop (list_of_set E all_unique_companies);; get_locals);
  print MsgFinished;;
  let df := DataFrame_of_records records in
  let df := fold_left add_missing_column excel_output_cols df in
  df ← lift (select_columns df excel_output_cols);
  forbes ← lift (sheet df (fun c => bool_decide (c ∈ forbes_companies_list)));
  print (MsgPrepared "Forbes" (length (t_rows forbes)));;
  greatplaces ← lift (sheet df (fun c => bool_decide (c ∈ greatplaces_companies_list)));
  print (MsgPrepared "Great Place To Work" (length (t_rows greatplaces)));;
  common ← lift (sheet df (fun c => bool_decide (c ∈ common_companies)));
  print (MsgPrepared "Common Companies" (length (t_rows common)));;
  mret (Report records df forbes greatplaces common).

End Main.

(** ** Specification-side notions *)

(** A candidate tagged as an equity instrument, and the symbol of the
    first such candidate of a list ([None] when there is none, or when
    that candidate has no symbol). *)
Definition is_equity (candidate : dict) : bool :=
  eq_str (default PyNone (candidate !! "quoteType")) "EQUITY".

Definition first_equity_symbol (candidates : list dict) : pyval :=
  match List.find is_equity candidates with
  | Some candidate => default PyNone (candidate !! "symbol")
  | None => PyNone
  end.

(** What [get_ticker] makes of the answer to its one request: the
    [except] clause turns a [RequestException] into [None] and lets any
    other exception through. *)
Definition catch_request (o : outcome (option pyval)) : outcome pyval :=
  match o with
  | Returned found => Returned (default PyNone found)
  | Raised e => if is_RequestException e then Returned PyNone else Raised e
  end.

Definition ticker_of_response (response : outcome pyval) : outcome pyval :=
  catch_request
    (res ← response;
     quotes ← py_get res "quotes" (PyList []);
     results ← py_iter quotes;
     scan_quotes results).

(** The keys of the dictionary [get_stock_info] returns. *)
Definition info_keys : list string :=
  ["Ticker"; "Name"; "Sector"; "Industry"; "Price"; "Market Cap"; "PE Ratio"; "Error"].

(** The dictionary is the one built on lines 203-212, whatever values
    the attempts made so far have stored in it. *)
Definition record_for (ticker : pyval) (d : dict) : Prop :=
  d !! "Ticker" = Some ticker ∧ dom d = dom (info_init ticker).

(** Lines 220-225 for a response [info] that is a dictionary. *)
Definition populate (info : dict) (d : dict) : dict :=
  <["PE Ratio" := default PyNone (info !! "trailingPE")]>
  (<["Market Cap" := default PyNone (info !! "marketCap")]>
  (<["Price" := default PyNone (info !! "currentPrice")]>
  (<["Industry" := default PyNone (info !! "industry")]>
  (<["Sector" := default PyNone (info !! "sector")]>
  (<["Name" := default PyNone (info !! "shortName")]> d))))).

(** The record of a successful fetch: every field as the response has
    it, no error. *)
Definition success_record (ticker : pyval) (info : dict) : dict :=
  <["Error" := PyNone]> (populate info (info_init ticker)).

(** The record when nothing was ever fetched and [error] came last. *)
Definition failure_record (ticker : pyval) (error : string) : dict :=
  <["Error" := PyStr error]> (info_init ticker).

(** The metrics queries among some events. *)
Definition is_query (ev : event) : bool :=
  match ev with YfInfo _ => true | _ => false end.

Definition count_queries (evs : list event) : nat :=
  length (filter (fun ev => is_query ev = true) evs).

(** The fields copied from the response and the keys they come from
    (lines 220-225). *)
Definition field_sources : list (string * string) :=
  [("Name", "shortName"); ("Sector", "sector"); ("Industry", "industry");
   ("Price", "currentPrice"); ("Market Cap", "marketCap"); ("PE Ratio", "trailingPE")].

(** What a failed attempt that is not the last adds to the history [h]:
    the query, the notice, the pause; and the length of that pause. *)
Definition retry_delay (E : environment) (ticker : pyval) (min_delay max_delay : Q)
    (h : list event) : Q :=
  (min_delay + (max_delay - min_delay) * u_val (random_random E (h ++ [YfInfo ticker])))%Q.

Definition retry_events (E : environment) (ticker : pyval) (attempt retries : Z)
    (min_delay max_delay : Q) (h : list event) (error_message : string) : list event :=
  let current_delay := retry_delay E ticker min_delay max_delay h in
  [YfInfo ticker;
   Print (MsgRetrying ticker attempt retries error_message current_delay);
   Sleep current_delay].

(** The three strategies, row by row: the sector is listed, the figure
    is there and on the right side of the threshold. *)
Definition in_sectors (sectors : list string) (r : stock_record) : bool :=
  match col_Sector r with
  | Some sector => bool_decide (sector ∈ sectors)
  | None => false
  end.

Definition present {A} (cell : option A) : bool :=
  match cell with Some _ => true | None => false end.

Definition defensive_row (r : indexed_row) : bool :=
  in_sectors defensive_sectors r.2 && present (col_PE_Ratio r.2)
  && match col_PE_Ratio r.2 with Some pe => Qlt_bool pe 20 | None => false end.

Definition cyclical_row (r : indexed_row) : bool :=
  in_sectors cyclical_sectors r.2 && present (col_Market_Cap r.2).

Definition growth_row (r : indexed_row) : bool :=
  in_sectors growth_sectors r.2 && present (col_PE_Ratio r.2)
  && match col_PE_Ratio r.2 with Some pe => Qlt_bool 25 pe | None => false end.

(** The rows a recognised strategy name (in lower case) selects and
    orders; [None] for any other name. *)
Definition strategy_rows (np_sort : list keyed_row -> list keyed_row)
    (rows : list indexed_row) (name : string) : option (list indexed_row) :=
  if String.eqb name "defensive" then
    Some (sorted_rows np_sort col_PE_Ratio true (filter (fun r => defensive_row r = true) rows))
  else if String.eqb name "cyclical" then
    Some (sorted_rows np_sort col_Market_Cap false (filter (fun r => cyclical_row r = true) rows))
  else if String.eqb name "growth" then
    Some (sorted_rows np_sort col_PE_Ratio false (filter (fun r => growth_row r = true) rows))
  else None.

(** The table a call answers with, and what it prints. *)
Definition strategy_table (np_sort : list keyed_row -> list keyed_row)
    (frame : DataFrame) (strategy_type : string) : DataFrame :=
  if df_empty frame then NoColumns
  else match strategy_rows np_sort (df_rows frame) (py_lower strategy_type) with
       | Some rows => Frame rows
       | None => frame
       end.

Definition strategy_output (np_sort : list keyed_row -> list keyed_row)
    (frame : DataFrame) (strategy_type : string) : list event :=
  if df_empty frame then []
  else match strategy_rows np_sort (df_rows frame) (py_lower strategy_type) with
       | Some _ => []
       | None => [Print (MsgUnknownStrategy strategy_type)]
       end.

(** The strategy names, and what it is to be one of them up to the case
    of the letters. *)
Definition strategy_names : list string := ["defensive"; "cyclical"; "growth"].

Definition ascii_upper (c : ascii) : ascii :=
  let n := nat_of_ascii c in
  if ((97 <=? n) && (n <=? 122))%nat then ascii_of_nat (n - 32) else c.

Fixpoint casing_of (s name : string) : Prop :=
  match s, name with
  | EmptyString, EmptyString => True
  | String a s', String b name' => (a = b ∨ a = ascii_upper b) ∧ casing_of s' name'
  | _, _ => False
  end.

(** Rows in the order of a column: ascending, descending. *)
Definition ascending_by (by_ : stock_record -> option Q) (a b : indexed_row) : Prop :=
  match by_ a.2, by_ b.2 with
  | Some x, Some y => (x <= y)%Q
  | _, _ => False
  end.

Definition descending_by (by_ : stock_record -> option Q) (a b : indexed_row) : Prop :=
  ascending_by by_ b a.

(** A sort to run the filter with. *)
#[global] Instance key_le_dec (a b : keyed_row) : Decision (key_le a b).
Proof.
  refine (cast_if (decide (Qle_bool a.1 b.1 = true))); unfold key_le;
    by rewrite <- Qle_bool_iff.
Defined.

Definition merge_sort_rows : list keyed_row -> list keyed_row := merge_sort key_le.

(** ** Two sample worlds *)

Definition u_half : unit_interval := UnitInterval (1 # 2) eq_refl.

(** Every service is down; the metrics service numbers its refusals. *)
Definition E_down : environment := {|
  requests_get_json := fun _ _ _ => Raised (Exn (RequestException Timeout) "timed out");
  yf_ticker_info := fun h _ =>
    Raised (Exn OtherException
      (match count_queries h with
       | 0%nat => "first refusal"
       | 1%nat => "second refusal"
       | _ => "third refusal"
       end));
  random_random := fun _ => u_half;
  random_below := fun _ _ => 0%nat;
  str_of_other := fun _ => "?";
  list_of_set := elements
|}.

Definition acme_quotes : list dict :=
  [ {[ "quoteType" := PyStr "ETF"; "symbol" := PyStr "ACMF" ]};
    {[ "quoteType" := PyStr "EQUITY"; "symbol" := PyStr "ACME" ]};
    {[ "quoteType" := PyStr "EQUITY"; "symbol" := PyStr "ACM2" ]} ].

Definition acme_info : dict :=
  {[ "shortName" := PyStr "Acme Corp."; "sector" := PyStr "Industrials";
     "currentPrice" := PyFloat (25 # 2) ]}.

(** The lookup knows every company but "Unlisted Co", for which it times
    out; the metrics service refuses the first query and answers the
    later ones. *)
Definition E_up : environment := {|
  requests_get_json := fun _ url _ =>
    if String.eqb url (search_url "Unlisted Co")
    then Raised (Exn (RequestException Timeout) "timed out")
    else Returned (PyDict {[ "quotes" := PyList (PyDict <$> acme_quotes) ]});
  yf_ticker_info := fun h _ =>
    match count_queries h with
    | 0%nat => Raised (Exn OtherException "connection reset")
    | _ => Returned (PyDict acme_info)
    end;
  random_random := fun _ => u_half;
  random_below := fun _ _ => 1%nat;
  str_of_other := fun _ => "?";
  list_of_set := elements
|}.

(** The lookup answers every request with [res]; the metrics service is
    down. *)
Definition E_answering (res : pyval) : environment := {|
  requests_get_json := fun _ _ _ => Returned res;
  yf_ticker_info := fun _ _ => Raised (Exn OtherException "connection reset");
  random_random := fun _ => u_half;
  random_below := fun _ _ => 0%nat;
  str_of_other := fun _ => "?";
  list_of_set := elements
|}.

Definition start {L} (l : L) : state L := State l ∅ [].

(** A small table, and a state whose heap holds it at address 0. *)
Definition sample_rows : list indexed_row :=
  [ (0%nat, StockRecord (Some "AAA") (Some "A") (Some "Healthcare") None None
              (Some (5 # 1)) (Some (30 # 1)) None);
    (1%nat, StockRecord (Some "BBB") (Some "B") (Some "Utilities") None None
              (Some (7 # 1)) (Some (25 # 2)) None);
    (2%nat, StockRecord (Some "CCC") (Some "C") (Some "Healthcare") None None
              None None None);
    (3%nat, StockRecord (Some "DDD") (Some "D") (Some "Healthcare") None None
              (Some (1 # 1)) (Some (9 # 1)) None);
    (4%nat, StockRecord (Some "EEE") (Some "E") (Some "Technology") None None
              (Some (2 # 1)) (Some (8 # 1)) None);
    (5%nat, StockRecord (Some "FFF") (Some "F") (Some "Industrials") None None
              (Some (4 # 1)) (Some (40 # 1)) None);
    (6%nat, StockRecord (Some "GGG") (Some "G") (Some "Financial Services") None None
              (Some (9 # 1)) None None) ].

(** The index labels of the frame a call returns. *)
Definition returned_labels (run : outcome nat * state unit) : option (list nat) :=
  match run.1 with
  | Returned l => (fun df => (df_rows df).*1) <$> heap run.2 !! l
  | Raised _ => None
  end.

Definition with_table (frame : DataFrame) : state unit :=
  State tt {[ 0%nat := frame ]} [].

(** A run of the main block in the second world: "Unlisted Co" is in
    both rankings. *)
Definition sample_forbes : list string := ["Globex"; "Unlisted Co"].
Definition sample_greatplaces : list string := ["Unlisted Co"; "Initech"].
Definition sample_run : outcome report * state unit :=
  main E_up sample_forbes sample_greatplaces (start tt).

(** The column that joins a record to its company. *)
Abbreviation OCN := "Original Company Name".

(** ** Notions for the further properties *)

Definition pauses (evs : list event) : list Q :=
  omap (fun ev => match ev with Sleep seconds => Some seconds | _ => None end) evs.

Definition nameless_error (E : environment) (ticker : pyval) : string :=
  "Minimal info (Name) not received for " +:+ py_str E ticker.

Definition in_sheet (names : string -> bool) (r : nat * dict) : bool :=
  cell_isin names (default PyNone (r.2 !! OCN)).

Definition enriched_table (records : list dict) : table :=
  Table excel_output_cols
    ((fun r : nat * dict => (r.1, project excel_output_cols r.2))
     <$> imap (fun i r => (i, r)) records).

Definition sheet_of (df : table) (names : string -> bool) : table :=
  Table output_cols_for_sheets
    ((fun r : nat * dict => (r.1, project output_cols_for_sheets r.2))
     <$> filter (fun r => in_sheet names r = true) (t_rows df)).

Definition report_of (forbes greatplaces : list string) (records : list dict) : report :=
  let df := enriched_table records in
  Report records df
    (sheet_of df (fun c => bool_decide (c ∈ forbes)))
    (sheet_of df (fun c => bool_decide (c ∈ greatplaces)))
    (sheet_of df (fun c => bool_decide
       (c ∈ (list_to_set forbes ∩ list_to_set greatplaces : gset string)))).

Definition report_output (r : report) : list event :=
  [ Print MsgFinished;
    Print (MsgPrepared "Forbes" (length (t_rows (forbes_final_df r))));
    Print (MsgPrepared "Great Place To Work" (length (t_rows (greatplaces_final_df r))));
    Print (MsgPrepared "Common Companies" (length (t_rows (common_final_df r)))) ].


(** Every spelling of a fragment the repair pass recognises. *)
Definition fragment_spellings : list string := ["s"; "S"; "'s"; "'S"; "’s"; "’S"].

(** The step of [dict_fromkeys]: a key already there keeps its place. *)
Definition fromkeys_step (keys : list string) (name : string) : list string :=
  if decide (name ∈ keys) then keys else keys ++ [name].


(** ** The two scrapers (lines 19-163)

    What the network and the HTML parser hand over is taken as given:
    [page] is the outcome of fetching the page and selecting the tags
    (lines 30-36, 132-137), either an exception or the stripped text of
    every selected tag, in page order.  What the functions print is
    returned beside their result, in order. *)

Inductive scrape_message :=
| TagsFound (source : string) (n : nat)
| ValidCompanies (n : nat)
| FewerThanExpected (source : string) (n : nat)
| ExcludedHeader (total : nat)
| ExcludedEntry (name reason : string)
| TopCompanies (source : string) (n : nat)
| FetchError (source text : string).

(** A ranking table: the columns "Rank" and "Company", row by row. *)
Abbreviation ranking := (list (Z * string)).

(** [pd.DataFrame({"Rank": range(1, len(names) + 1), "Company": names})] *)
Definition ranked (names : list string) : ranking :=
  imap (fun i name => (Z.of_nat i + 1, name)) names.

(** [len(s)]: the code points of a UTF-8 string are its bytes that do
    not continue a sequence. *)
Definition is_continuation (c : ascii) : bool :=
  let n := nat_of_ascii c in ((128 <=? n) && (n <? 192))%nat.

Definition py_len (s : string) : nat :=
  length (filter (fun c => is_continuation c = false) (list_ascii_of_string s)).

(** [kw in s] *)
Fixpoint contains (kw s : string) : bool :=
  String.prefix kw s ||
  match s with
  | EmptyString => false
  | String _ s' => contains kw s'
  end.

(** [s.replace('.', '', 1)] *)
Fixpoint remove_first_dot (s : string) : string :=
  match s with
  | EmptyString => EmptyString
  | String c s' => if Ascii.eqb c "." then s' else String c (remove_first_dot s')
  end.

Definition exclude_keywords : list string :=
  ["contributor"; "editor"; "subscribe"; "photo"; "watch"; "video"; "2025"].

Section Scrapers.

(** [str.isdigit], which rests on Unicode's table of digits. *)
Context (isdigit : string -> bool).

(** The [if]/[elif] chain of lines 52-61.  The lowering is the ASCII
    one.  Unicode lowers two more code points into ASCII letters: the
    Kelvin sign, to "k", and the dotted capital I, to "i" followed by a
    combining dot.  The keywords and "by " have no "k", and none of them
    ends in "i", so neither code point can complete a match and the
    tests come out the same. *)
Definition exclusion_reason (name : string) : option string :=
  if String.eqb name "" then Some "empty"
  else if (60 <=? py_len name)%nat then Some "too long"
  else if existsb (fun kw => contains kw (py_lower name)) exclude_keywords
       then Some "excluded keyword"
  else if isdigit (remove_first_dot name) then Some "numeric"
  else if String.prefix "by " (py_lower name) then Some "starts with 'by '"
  else None.

(** One turn of the loop on lines 48-66; the state is
    [(companies, excluded)]. *)
Definition classify_step (st : list string * list (string * string)) (name : string)
    : list string * list (string * string) :=
  let '(companies, excluded) := st in
  match exclusion_reason name with
  | Some reason => (companies, excluded ++ [(name, reason)])
  | None => (companies ++ [name], excluded)
  end.

(** Lines 97-100. *)
Definition excluded_report (excluded : list (string * string)) : list scrape_message :=
  match excluded with
  | [] => []
  | _ => ExcludedHeader (length excluded)
         :: ((fun nr : string * string => ExcludedEntry nr.1 nr.2) <$> take 5 excluded)
  end.

(** Lines 37-115, once the tags are there. *)
Definition forbes_body (texts : list string) : outcome ranking * list scrape_message :=
  let out := [TagsFound "Forbes" (length texts)] in
  let '(companies, excluded) := fold_left classify_step texts ([], []) in
  let unique_companies := Normalizer.dict_fromkeys companies in
  match Normalizer.fix_apostrophes unique_companies with
  | None => (Raised (Exn OtherException "list index out of range"), out)
  | Some unique_companies =>
      let out := out ++ [ValidCompanies (length unique_companies)] in
      let out :=
        if (length unique_companies <? 100)%nat
        then out ++ [FewerThanExpected "Forbes" (length unique_companies)] else out in
      let out := out ++ excluded_report excluded in
      let top_100 := take 100 unique_companies in
      let forbes_df := ranked top_100 in
      (Returned forbes_df, out ++ [TopCompanies "Forbes" (length forbes_df)])
  end.

(** [try: ... except requests.exceptions.RequestException as e: ...]
    around a body: the error is printed and the empty table returned. *)
Definition or_empty_table (source : string)
    (body : outcome ranking * list scrape_message)
    : outcome ranking * list scrape_message :=
  match body with
  | (Raised e, out) =>
      if is_RequestException e
      then (Returned [], out ++ [FetchError source (exn_str e)])
      else (Raised e, out)
  | returned => returned
  end.

Definition get_forbes_employers (page : outcome (list string))
    : outcome ranking * list scrape_message :=
  or_empty_table "Forbes"
    match page with
    | Raised e => (Raised e, [])
    | Returned texts => forbes_body texts
    end.

(** Lines 138-159. *)
Definition greatplaces_body (texts : list string) : outcome ranking * list scrape_message :=
  let out := [TagsFound "Great Place To Work" (length texts)] in
  let companies := texts in
  let filtered_companies :=
    filter (fun name => negb (String.eqb name "") && (py_len name <? 100)%nat = true)
           companies in
  let out :=
    if (length filtered_companies <? 100)%nat
    then out ++ [FewerThanExpected "Great Place To Work" (length filtered_companies)]
    else out in
  let gpwt_df := ranked filtered_companies in
  (Returned gpwt_df, out ++ [TopCompanies "Great Place To Work" (length gpwt_df)]).

Definition get_greatplacetowork_employers (page : outcome (list string))
    : outcome ranking * list scrape_message :=
  or_empty_table "Great Place To Work"
    match page with
    | Raised e => (Raised e, [])
    | Returned texts => greatplaces_body texts
    end.

End Scrapers.

(** [df["Company"].tolist()] *)
Definition company_column (df : ranking) : list string := df.*2.

(** [str.isdigit] on ASCII text, to run the scrapers with. *)
Definition ascii_isdigit (s : string) : bool :=
  negb (String.eqb s "")
  && forallb (fun c => let n := nat_of_ascii c in ((48 <=? n) && (n <=? 57))%nat)
             (list_ascii_of_string s).

Definition sample_page : list string :=
  ["By Rachel Peachman"; "McDonald"; "'s"; "34.5"; ""; "Acme"; "Watch the video";
   "McDonald"; "Costco"; "’S"; "Wendy"; "'s"].

(** * Properties *)

(** Unfold the monad's operations at a state. *)
Ltac run :=
  unfold mbind, M_bind, mret, M_ret, get_history, get_locals, set_locals, emit, lift,
         raise, try_except, print, call;
  cbn [locals heap history fst snd].

(** ** The apostrophe repair *)

Module NormalizerFacts.
Import Normalizer.

Lemma merge_fragments_cons2 name fragment rest :
  merge_fragments (name :: fragment :: rest) =
  if is_fragment fragment
  then (name +:+ "'s") :: merge_fragments rest
  else name :: merge_fragments (fragment :: rest).
Proof. reflexivity. Qed.

Ltac some_bind :=
  repeat match goal with
  | |- context [mbind ?f (Some ?a)] => change (mbind f (Some a)) with (f a); cbv beta
  end.

(** The loop, started at index [i] with [n] indices left, appends the
    repair of the names from [i] on (from [i + 1] on when [skip_next]
    is set). *)
Lemma fix_loop_from (l : list string) (n : nat) :
  forall (i : nat) (fixed : list string), (i + n = length l)%nat ->
    fst <$> fix_loop l (seq i n) (fixed, false) = Some (fixed ++ merge_fragments (drop i l))
    /\ fst <$> fix_loop l (seq i n) (fixed, true)
       = Some (fixed ++ merge_fragments (drop (S i) l)).
Proof.
  induction n as [|n IH]; intros i fixed Hlen.
  - rewrite !drop_ge by lia. simpl. by rewrite app_nil_r.
  - destruct (lookup_lt_is_Some_2 l i) as [x Hx]; [lia|].
    destruct (IH (S i) fixed ltac:(lia)) as [IHf _].
    split; [|exact IHf].
    cbn [seq fix_loop fix_step]. rewrite Hx. some_bind.
    rewrite (drop_S _ _ _ Hx).
    case_bool_decide as Hnext.
    + destruct (lookup_lt_is_Some_2 l (i + 1)) as [y Hy]; [lia|].
      rewrite Hy. some_bind.
      replace (i + 1)%nat with (S i) in Hy by lia.
      rewrite (drop_S _ _ _ Hy), merge_fragments_cons2.
      unfold is_fragment. case_bool_decide; some_bind.
      * destruct (IH (S i) (fixed ++ [x +:+ "'s"]) ltac:(lia)) as [_ IHt].
        rewrite IHt. by rewrite <- app_assoc.
      * destruct (IH (S i) (fixed ++ [x]) ltac:(lia)) as [IHf' _].
        rewrite IHf', (drop_S _ _ _ Hy). by rewrite <- app_assoc.
    + some_bind. destruct (IH (S i) (fixed ++ [x]) ltac:(lia)) as [IHf' _].
      rewrite IHf'. rewrite drop_ge by lia. by rewrite <- app_assoc.
Qed.

(** The letters that lower to a given one: itself and its capital. *)
Lemma ascii_lower_inv (c d : ascii) :
  ascii_lower c = d -> c = d \/ c = ascii_upper d.
Proof.
  intros <-.
  destruct c as [[] [] [] [] [] [] [] []];
    first [left; reflexivity | right; reflexivity].
Qed.

(** The fragments are six spellings, and no other string. *)
Lemma is_fragment_spelling (name : string) :
  is_fragment name = true <-> name ∈ ["s"; "S"; "'s"; "'S"; "’s"; "’S"].
Proof.
  split.
  - unfold is_fragment, apostrophe_variants. rewrite bool_decide_eq_true.
    rewrite !elem_of_cons, elem_of_nil. intros [H|[H|[H|[]]]].
    + destruct name as [|a [|? ?]]; try discriminate H. injection H as H.
      apply ascii_lower_inv in H as [->| ->];
        apply (bool_decide_unpack _); by vm_compute.
    + destruct name as [|a [|b [|? ?]]]; try discriminate H. injection H as Ha Hb.
      apply ascii_lower_inv in Ha as [->| ->], Hb as [->| ->];
        apply (bool_decide_unpack _); by vm_compute.
    + destruct name as [|a [|b [|c [|d [|? ?]]]]]; try discriminate H.
      injection H as Ha Hb Hc Hd.
      apply ascii_lower_inv in Ha as [->| ->], Hb as [->| ->], Hc as [->| ->],
        Hd as [->| ->]; apply (bool_decide_unpack _); by vm_compute.
  - rewrite !elem_of_cons, elem_of_nil.
    intros [->|[->|[->|[->|[->|[->|[]]]]]]]; reflexivity.
Qed.

(** C8. The repair pass turns [["McDonald"; "'s"; "Acme"]] into
    [["McDonald's"; "Acme"]] (also after the dedup step).  On every
    list it never fails, and it goes one position ahead at a time: a
    name followed by a fragment takes the suffix "'s" and the fragment
    is dropped with it, so that the pass goes on behind the fragment; a
    name followed by anything else, or by nothing, stays as it is, and
    the pass goes on with what follows.  The fragments are "s", "'s"
    and "’s" in either case of the letter, six spellings in all, and
    an upper-case one is merged like a lower-case one. *)
Theorem fix_apostrophes_merges :
  fix_apostrophes ["McDonald"; "'s"; "Acme"] = Some ["McDonald's"; "Acme"]
  /\ normalize ["McDonald"; "'s"; "Acme"] = Some ["McDonald's"; "Acme"]
  /\ fix_apostrophes ["Wendy"; "'S"; "Acme"; "S"] = Some ["Wendy's"; "Acme's"]
  /\ (forall names, fix_apostrophes names = Some (merge_fragments names))
  /\ (forall fragment,
        is_fragment fragment = true <-> fragment ∈ ["s"; "S"; "'s"; "'S"; "’s"; "’S"])
  /\ (forall name fragment rest,
        fragment ∈ ["s"; "S"; "'s"; "'S"; "’s"; "’S"] ->
        fix_apostrophes (name :: fragment :: rest) =
        cons (name +:+ "'s") <$> fix_apostrophes rest)
  /\ (forall name next rest,
        next ∉ ["s"; "S"; "'s"; "'S"; "’s"; "’S"] ->
        fix_apostrophes (name :: next :: rest) =
        cons name <$> fix_apostrophes (next :: rest))
  /\ (forall name, fix_apostrophes [name] = Some [name])
  /\ fix_apostrophes [] = Some [].
Proof.
  assert (forall names, fix_apostrophes names = Some (merge_fragments names)) as Heq.
  { intros names. unfold fix_apostrophes.
    destruct (fix_loop_from names (length names) 0 [] eq_refl) as [H _].
    exact H. }
  split; [reflexivity|]. split; [reflexivity|]. split; [reflexivity|].
  split; [exact Heq|]. split; [exact is_fragment_spelling|].
  split; [|split; [|split; [reflexivity|reflexivity]]].
  - intros name fragment rest Hfragment. apply is_fragment_spelling in Hfragment.
    by rewrite !Heq, merge_fragments_cons2, Hfragment.
  - intros name next rest Hnext.
    assert (is_fragment next = false) as Hfalse.
    { destruct (is_fragment next) eqn:H; [|done].
      by apply is_fragment_spelling in H. }
    by rewrite !Heq, merge_fragments_cons2, Hfalse.
Qed.

(** The comparison ignores case, and a fragment that was merged is not
    itself a name that takes the next fragment. *)
Example fragment_upper_case :
  fix_apostrophes ["Wendy"; "'S"; "Acme"; "S"] = Some ["Wendy's"; "Acme's"].
Proof. reflexivity. Qed.

Example one_fragment_per_name :
  fix_apostrophes ["Lowe"; "s"; "'s"; "Acme"] = Some ["Lowe's"; "'s"; "Acme"].
Proof. reflexivity. Qed.

End NormalizerFacts.

(** ** The ticker resolver *)

Section TickerFacts.

Context (E : environment).

Lemma scan_quotes_dicts (candidates : list dict) :
  scan_quotes (PyDict <$> candidates) =
  Returned (match List.find is_equity candidates with
            | Some c => Some (default PyNone (c !! "symbol"))
            | None => None
            end).
Proof.
  induction candidates as [|c cs IH]; [done|].
  cbn [fmap list_fmap scan_quotes py_get List.find]. fold (@fmap list _ _ _ PyDict cs).
  unfold is_equity at 1. cbn [mbind outcome_bind].
  destruct (eq_str _ _); [done|]. exact IH.
Qed.

Lemma get_ticker_run company_name (s : state unit) :
  ∃ ua, ua ∈ USER_AGENTS ∧
    get_ticker E company_name s =
    (ticker_of_response (requests_get_json E (history s) (search_url company_name) ua),
     State (locals s) (heap s) (history s ++ [HttpGetJson (search_url company_name) ua])).
Proof.
  unfold get_ticker, random_choice.
  destruct (lookup_lt_is_Some_2 USER_AGENTS
    (random_below E (history s) (length USER_AGENTS) mod length USER_AGENTS)) as [ua Hua].
  { by apply Nat.mod_upper_bound. }
  exists ua. split; [by eapply list_elem_of_lookup_2|].
  unfold requests_get, ticker_of_response. run. rewrite Hua.
  destruct (requests_get_json E (history s) (search_url company_name) ua) as [res|e]; cbn.
  - destruct (py_get res "quotes" (PyList [])) as [quotes|e]; cbn.
    + destruct (py_iter quotes) as [results|e]; cbn.
      * destruct (scan_quotes results) as [[symbol|]|e]; cbn; [done..|].
        by destruct (is_RequestException e).
      * by destruct (is_RequestException e).
    + by destruct (is_RequestException e).
  - by destruct (is_RequestException e).
Qed.

(** C7, amended. [get_ticker] sends one lookup request and does nothing
    else observable.  If the request fails with any [requests]
    exception (connection, timeout, a body that is not JSON) the result
    is [None]; if it answers with an object whose candidates are a list
    of objects, the result is the symbol of the first one whose
    [quoteType] is "EQUITY", and [None] when there is none. *)
Theorem get_ticker_first_equity company_name (s : state unit) :
  ∃ ua, ua ∈ USER_AGENTS ∧
    let response := requests_get_json E (history s) (search_url company_name) ua in
    (get_ticker E company_name s).2 =
      State (locals s) (heap s) (history s ++ [HttpGetJson (search_url company_name) ua])
    ∧ (∀ k msg, response = Raised (Exn (RequestException k) msg) →
         (get_ticker E company_name s).1 = Returned PyNone)
    ∧ (∀ top candidates,
         response = Returned (PyDict top) →
         default (PyList []) (top !! "quotes") = PyList (PyDict <$> candidates) →
         (get_ticker E company_name s).1 = Returned (first_equity_symbol candidates)).
Proof.
  destruct (get_ticker_run company_name s) as (ua & Hua & Hrun).
  exists ua. split; [done|]. rewrite Hrun. cbn [fst snd].
  split; [done|]. split.
  - by intros k msg ->.
  - intros top cs -> Hq. unfold ticker_of_response. cbn [mbind outcome_bind py_get].
    rewrite Hq. cbn [mbind outcome_bind py_iter]. rewrite scan_quotes_dicts.
    unfold first_equity_symbol. by destruct (List.find is_equity cs).
Qed.

End TickerFacts.

(** ** The metrics fetcher *)

Section FetchFacts.
Context (E : environment).

Lemma try_block_run ticker (s : state dict) :
  try_block E ticker s =
  let h := history s ++ [YfInfo ticker] in
  match yf_ticker_info E (history s) ticker with
  | Raised e => (Raised e, State (locals s) (heap s) h)
  | Returned (PyDict info) =>
      let d := populate info (locals s) in
      if truthy (default PyNone (info !! "shortName"))
      then (Returned (Some (<["Error" := PyNone]> d)), State (<["Error" := PyNone]> d) (heap s) h)
      else (Raised (Exn ValueError ("Minimal info (Name) not received for " +:+ py_str E ticker)),
            State d (heap s) h)
  | Returned other =>
      (Raised (Exn AttributeError ("'" +:+ type_name other +:+ "' object has no attribute 'get'")),
       State (locals s) (heap s) h)
  end.
Proof.
  unfold try_block, yf_info, copy_field, setitem. run.
  destruct (yf_ticker_info E (history s) ticker) as [info|e]; [|done].
  destruct info; try done.
  cbn [py_get]. cbn [locals heap history].
  unfold getitem. fold (populate d (locals s)).
  assert (populate d (locals s) !! "Name" = Some (default PyNone (d !! "shortName"))) as ->.
  { unfold populate. by simplify_map_eq. }
  by destruct (truthy _).
Qed.

Lemma except_block_run ticker retries min_delay max_delay attempt e (s : state dict) :
  except_block E ticker retries min_delay max_delay attempt e s =
  let d := <["Error" := PyStr (exn_str e)]> (locals s) in
  if attempt <? retries - 1 then
    let delay := (min_delay + (max_delay - min_delay) * u_val (random_random E (history s)))%Q in
    let h := history s ++ [Print (MsgRetrying ticker (attempt + 1) retries (exn_str e) delay)] in
    if Qle_bool sleep_limit delay || negb (Qle_bool (- sleep_limit) delay)
    then (Raised (Exn OverflowError "timestamp too large to convert to C _PyTime_t"),
          State d (heap s) h)
    else if Qle_bool 0 delay
    then (Returned None, State d (heap s) (h ++ [Sleep delay]))
    else (Raised (Exn ValueError "sleep length must be non-negative"), State d (heap s) h)
  else
    (Returned (Some d), State d (heap s)
       (history s ++ [Print (MsgFailed ticker retries (exn_str e))])).
Proof.
  unfold except_block, setitem, random_uniform, time_sleep. run.
  destruct (attempt <? retries - 1); [|done].
  destruct (_ || _); [done|]. by destruct (Qle_bool 0 _).
Qed.

Ltac in_list := apply (bool_decide_unpack _); by vm_compute.

Lemma dom_info_init ticker :
  dom (info_init ticker) = list_to_set info_keys.
Proof. unfold info_init, info_keys. rewrite !dom_insert_L. set_solver. Qed.

Lemma record_for_init ticker : record_for ticker (info_init ticker).
Proof. split; [by unfold info_init; simplify_map_eq | done]. Qed.

Lemma record_for_insert ticker d key v :
  key ∈ info_keys → key ≠ "Ticker" → record_for ticker d → record_for ticker (<[key := v]> d).
Proof.
  intros Hkey Hne [Ht Hdom]. split; [by rewrite lookup_insert_ne|].
  rewrite dom_insert_L, Hdom. apply subseteq_union_1_L, singleton_subseteq_l.
  rewrite dom_info_init. by apply elem_of_list_to_set.
Qed.

Lemma record_for_populate ticker info d :
  record_for ticker d → record_for ticker (populate info d).
Proof.
  intros H. unfold populate.
  repeat (apply record_for_insert; [in_list | done |]). done.
Qed.

Lemma success_record_eq ticker info d :
  record_for ticker d → <["Error" := PyNone]> (populate info d) = success_record ticker info.
Proof.
  intros [Ht Hdom]. unfold success_record, populate. apply map_eq. intros k.
  destruct (decide (k = "Error")) as [->|]; [by simplify_map_eq|].
  destruct (decide (k = "PE Ratio")) as [->|]; [by simplify_map_eq|].
  destruct (decide (k = "Market Cap")) as [->|]; [by simplify_map_eq|].
  destruct (decide (k = "Price")) as [->|]; [by simplify_map_eq|].
  destruct (decide (k = "Industry")) as [->|]; [by simplify_map_eq|].
  destruct (decide (k = "Sector")) as [->|]; [by simplify_map_eq|].
  destruct (decide (k = "Name")) as [->|]; [by simplify_map_eq|].
  rewrite !lookup_insert_ne by done.
  destruct (decide (k = "Ticker")) as [->|].
  { rewrite Ht. unfold info_init. by simplify_map_eq. }
  assert (k ∉ dom (info_init ticker)) as Hk.
  { rewrite dom_info_init, elem_of_list_to_set. unfold info_keys.
    rewrite !not_elem_of_cons. by repeat split; [..|apply not_elem_of_nil]. }
  rewrite (proj1 (not_elem_of_dom _ _) Hk).
  rewrite <- Hdom in Hk. by apply not_elem_of_dom.
Qed.

Lemma unit_interval_range (u : unit_interval) : (0 <= u_val u < 1)%Q.
Proof.
  destruct u as [u Hu]. cbn [u_val].
  apply andb_prop in Hu as [H0 H1]. apply Qle_bool_iff in H0. split; [done|].
  apply Qnot_le_lt. intros H. apply Qle_bool_iff in H. by rewrite H in H1.
Qed.

Lemma uniform_nonneg (a b : Q) (u : unit_interval) :
  (0 <= a)%Q → (0 <= b)%Q → Qle_bool 0 (a + (b - a) * u_val u) = true.
Proof.
  intros Ha Hb. destruct (unit_interval_range u). apply Qle_bool_iff. nra.
Qed.

(** What [random.uniform] draws lies between its bounds, whichever is
    the larger: below a limit both are below. *)
Lemma uniform_below (a b limit : Q) (u : unit_interval) :
  (a < limit)%Q → (b < limit)%Q → (a + (b - a) * u_val u < limit)%Q.
Proof. intros Ha Hb. destruct (unit_interval_range u). nra. Qed.

(** A length that [time.sleep] accepts. *)
Lemma sleep_accepts (seconds : Q) :
  (0 <= seconds < sleep_limit)%Q →
  Qle_bool sleep_limit seconds || negb (Qle_bool (- sleep_limit) seconds) = false
  ∧ Qle_bool 0 seconds = true.
Proof.
  intros [H0 Hlimit]. split; [|by apply Qle_bool_iff].
  apply orb_false_intro.
  - destruct (Qle_bool sleep_limit seconds) eqn:H; [|done].
    apply Qle_bool_iff in H. by apply Qle_not_lt in H.
  - apply negb_false_iff, Qle_bool_iff.
    assert (- sleep_limit <= 0)%Q by done. lra.
Qed.

Lemma uniform_sleeps (a b : Q) (u : unit_interval) :
  (0 <= a < sleep_limit)%Q → (0 <= b < sleep_limit)%Q →
  (0 <= a + (b - a) * u_val u < sleep_limit)%Q.
Proof.
  intros [Ha Ha'] [Hb Hb']. split.
  - apply Qle_bool_iff. by apply uniform_nonneg.
  - by apply uniform_below.
Qed.

Lemma attempt_loop_cons ticker retries min_delay max_delay attempt rest s :
  attempt_loop E ticker retries min_delay max_delay (attempt :: rest) s =
  match attempt_once E ticker retries min_delay max_delay attempt s with
  | (Returned (Some d), s') => (Returned (Some d), s')
  | (Returned None, s') => attempt_loop E ticker retries min_delay max_delay rest s'
  | (Raised e, s') => (Raised e, s')
  end.
Proof.
  cbn [attempt_loop]. unfold mbind at 1, M_bind at 1.
  destruct (attempt_once _ _ _ _ _ _ s) as [[[d|]|e] s']; done.
Qed.

(** An iteration keeps the record's shape and the heap, whatever its outcome. *)
Lemma attempt_once_keeps ticker retries min_delay max_delay attempt s r s' :
  attempt_once E ticker retries min_delay max_delay attempt s = (r, s') →
  record_for ticker (locals s) →
  record_for ticker (locals s') ∧ heap s' = heap s.
Proof.
  unfold attempt_once, try_except. rewrite try_block_run. cbn zeta.
  intros Hrun Hrec.
  assert (∀ e (s1 : state dict), record_for ticker (locals s1) →
    except_block E ticker retries min_delay max_delay attempt e s1 = (r, s') →
    record_for ticker (locals s') ∧ heap s' = heap s1) as Hexcept.
  { intros e s1 H1. rewrite except_block_run. cbn zeta.
    assert (record_for ticker (<["Error" := PyStr (exn_str e)]> (locals s1))).
    { apply record_for_insert; [in_list | done | done]. }
    destruct (attempt <? retries - 1);
      [destruct (_ || _); [|destruct (Qle_bool 0 _)]|];
      intros [= <- <-]; done. }
  destruct (yf_ticker_info E (history s) ticker) as [info|e].
  - destruct info; try (apply Hexcept in Hrun; done).
    destruct (truthy _).
    + injection Hrun as <- <-. split; [|done]. cbn [locals].
      apply record_for_insert; [in_list | done |].
      by apply record_for_populate.
    + apply Hexcept in Hrun; [done|]. by apply record_for_populate.
  - apply Hexcept in Hrun; done.
Qed.

Lemma count_queries_app evs1 evs2 :
  count_queries (evs1 ++ evs2) = (count_queries evs1 + count_queries evs2)%nat.
Proof. unfold count_queries. by rewrite filter_app, length_app. Qed.

(** With delays that [time.sleep] accepts an iteration does not raise:
    it asks once, and either returns the record or, before the last
    attempt only, goes on. *)
Lemma attempt_once_returns ticker retries min_delay max_delay attempt s :
  (0 <= min_delay < sleep_limit)%Q → (0 <= max_delay < sleep_limit)%Q →
  ∃ r d evs,
    attempt_once E ticker retries min_delay max_delay attempt s =
      (Returned r, State d (heap s) (history s ++ evs))
    ∧ count_queries evs = 1%nat
    ∧ match r with Some d' => d' = d | None => attempt < retries - 1 end.
Proof.
  intros Hmin Hmax. unfold attempt_once, try_except. rewrite try_block_run. cbn zeta.
  assert (∀ e d1, ∃ r d evs,
    except_block E ticker retries min_delay max_delay attempt e
      (State d1 (heap s) (history s ++ [YfInfo ticker])) =
      (Returned r, State d (heap s) (history s ++ evs))
    ∧ count_queries evs = 1%nat
    ∧ match r with Some d' => d' = d | None => attempt < retries - 1 end) as Hexcept.
  { intros e d1. rewrite except_block_run. cbn zeta. cbn [locals heap history].
    destruct (attempt <? retries - 1) eqn:Hlast.
    - destruct (sleep_accepts _ (uniform_sleeps _ _ (random_random E (history s ++ [YfInfo ticker]))
                                   Hmin Hmax)) as [-> ->].
      eexists None, _, _.
      rewrite <- !app_assoc. split; [done|]. split; [done|]. lia.
    - eexists (Some _), _, _. rewrite <- !app_assoc. done. }
  destruct (yf_ticker_info E (history s) ticker) as [info|e]; [|apply Hexcept].
  destruct info; try apply Hexcept.
  destruct (truthy _); [|apply Hexcept].
  eexists (Some _), _, _. done.
Qed.

Lemma range_seq (a n : nat) : Z.of_nat <$> seq a (S n) = Z.of_nat a :: (Z.of_nat <$> seq (S a) n).
Proof. done. Qed.

(** The loop over the last [n >= 1] attempts returns the record within
    [n] queries. *)
Lemma attempt_loop_returns ticker retries min_delay max_delay :
  (0 <= min_delay < sleep_limit)%Q → (0 <= max_delay < sleep_limit)%Q →
  ∀ (n a : nat) (s : state dict),
    Z.of_nat (a + S n) = retries →
    record_for ticker (locals s) →
    ∃ d evs,
      attempt_loop E ticker retries min_delay max_delay (Z.of_nat <$> seq a (S n)) s =
        (Returned (Some d), State d (heap s) (history s ++ evs))
      ∧ record_for ticker d
      ∧ (1 <= count_queries evs <= S n)%nat.
Proof.
  intros Hmin Hmax. induction n as [|n IH]; intros a s Hlen Hrec.
  - rewrite range_seq, attempt_loop_cons.
    destruct (attempt_once_returns ticker retries min_delay max_delay (Z.of_nat a) s Hmin Hmax)
      as (r & d & evs & Hrun & Hcount & Hr).
    pose proof (attempt_once_keeps _ _ _ _ _ _ _ _ Hrun Hrec) as [Hrec' _].
    rewrite Hrun. destruct r as [d'|]; [subst d'|lia].
    exists d, evs. split; [done|]. split; [done|]. lia.
  - rewrite range_seq, attempt_loop_cons.
    destruct (attempt_once_returns ticker retries min_delay max_delay (Z.of_nat a) s Hmin Hmax)
      as (r & d & evs & Hrun & Hcount & Hr).
    pose proof (attempt_once_keeps _ _ _ _ _ _ _ _ Hrun Hrec) as [Hrec' _].
    rewrite Hrun. destruct r as [d'|].
    + subst d'. exists d, evs. split; [done|]. split; [done|]. lia.
    + destruct (IH (S a) (State d (heap s) (history s ++ evs)) ltac:(lia) Hrec')
        as (d2 & evs2 & Hrun2 & Hrec2 & Hcount2).
      rewrite Hrun2. cbn [heap history]. exists d2, (evs ++ evs2).
      rewrite <- app_assoc. split; [done|]. split; [done|].
      rewrite count_queries_app. lia.
Qed.

(** The same for a call of [get_stock_info] with at least one attempt. *)
Lemma get_stock_info_returns {L} ticker retries min_delay max_delay (s : state L) :
  1 <= retries →
  (0 <= min_delay < sleep_limit)%Q → (0 <= max_delay < sleep_limit)%Q →
  ∃ d evs,
    get_stock_info E ticker retries min_delay max_delay s =
      (Returned d, State (locals s) (heap s) (history s ++ evs))
    ∧ record_for ticker d
    ∧ (1 <= Z.of_nat (count_queries evs) <= retries).
Proof.
  intros Hretries Hmin Hmax.
  unfold get_stock_info, call, get_stock_info_body, range.
  destruct (Z.to_nat retries) as [|n] eqn:Hn; [lia|].
  destruct (attempt_loop_returns ticker retries min_delay max_delay Hmin Hmax n 0
              (State (info_init ticker) (heap s) (history s)) ltac:(lia)
              (record_for_init ticker))
    as (d & evs & Hrun & Hrec & Hcount).
  unfold mbind at 1, M_bind at 1. rewrite Hrun. cbn [heap history].
  exists d, evs. split; [done|]. split; [done|]. lia.
Qed.

Lemma attempt_once_raises ticker retries min_delay max_delay attempt e (s : state dict) :
  yf_ticker_info E (history s) ticker = Raised e →
  attempt_once E ticker retries min_delay max_delay attempt s =
  except_block E ticker retries min_delay max_delay attempt e
    (State (locals s) (heap s) (history s ++ [YfInfo ticker])).
Proof.
  intros Hresp. unfold attempt_once, try_except. rewrite try_block_run, Hresp. done.
Qed.

(** C2. Three attempts allowed, and all three are made and fail: the
    metrics query raises [e1], [e2], [e3] at the three moments it is
    made, the two pauses in between being taken: their lengths are
    ones [time.sleep] accepts, not negative and below its limit (as
    they are whenever the delay bounds are).  Then the record returned
    has the ticker, no other field, and the text of [e3] as its
    error. *)
Theorem three_failures_keep_last_error {L} ticker min_delay max_delay (s : state L)
    e1 e2 e3 :
  let h1 := history s in
  let h2 := h1 ++ retry_events E ticker 1 3 min_delay max_delay h1 (exn_str e1) in
  let h3 := h2 ++ retry_events E ticker 2 3 min_delay max_delay h2 (exn_str e2) in
  yf_ticker_info E h1 ticker = Raised e1 →
  (0 <= retry_delay E ticker min_delay max_delay h1 < sleep_limit)%Q →
  yf_ticker_info E h2 ticker = Raised e2 →
  (0 <= retry_delay E ticker min_delay max_delay h2 < sleep_limit)%Q →
  yf_ticker_info E h3 ticker = Raised e3 →
  ∃ d,
    get_stock_info E ticker 3 min_delay max_delay s =
      (Returned d,
       State (locals s) (heap s)
         (h3 ++ [YfInfo ticker; Print (MsgFailed ticker 3 (exn_str e3))]))
    ∧ d !! "Ticker" = Some ticker
    ∧ Forall (fun key => d !! key = Some PyNone)
        ["Name"; "Sector"; "Industry"; "Price"; "Market Cap"; "PE Ratio"]
    ∧ d !! "Error" = Some (PyStr (exn_str e3)).
Proof.
  intros h1 h2 h3 H1 Hd1 H2 Hd2 H3. exists (failure_record ticker (exn_str e3)).
  apply sleep_accepts in Hd1 as [Hl1 Hd1], Hd2 as [Hl2 Hd2].
  unfold retry_delay in Hd1, Hd2, Hl1, Hl2. unfold h1 in Hd1, Hl1.
  split; [|split; [|split]];
    [| by unfold failure_record, info_init; simplify_map_eq
     | repeat constructor; by unfold failure_record, info_init; simplify_map_eq
     | by unfold failure_record; simplify_map_eq].
  unfold get_stock_info, call, get_stock_info_body.
  change (range 3) with [0; 1; 2].
  unfold mbind at 1, M_bind at 1.
  rewrite attempt_loop_cons, (attempt_once_raises _ _ _ _ _ e1) by done.
  rewrite except_block_run. cbn zeta. cbn [locals heap history]. change (0 <? 3 - 1) with true.
  cbn iota. rewrite Hl1, Hd1. rewrite <- !app_assoc.
  change (history s ++ _) with h2 at 1.
  rewrite attempt_loop_cons, (attempt_once_raises _ _ _ _ _ e2) by done.
  rewrite except_block_run. cbn zeta. cbn [locals heap history]. change (1 <? 3 - 1) with true.
  cbn iota. rewrite Hl2, Hd2. rewrite <- !app_assoc.
  change (h2 ++ _) with h3 at 1.
  rewrite attempt_loop_cons, (attempt_once_raises _ _ _ _ _ e3) by done.
  rewrite except_block_run. cbn zeta. cbn [locals heap history]. change (2 <? 3 - 1) with false.
  cbn iota. rewrite <- !app_assoc. unfold failure_record.
  by rewrite !insert_insert_eq.
Qed.

Lemma attempt_loop_app ticker retries min_delay max_delay attempts1 attempts2 s :
  attempt_loop E ticker retries min_delay max_delay (attempts1 ++ attempts2) s =
  match attempt_loop E ticker retries min_delay max_delay attempts1 s with
  | (Returned None, s') => attempt_loop E ticker retries min_delay max_delay attempts2 s'
  | r => r
  end.
Proof.
  revert s. induction attempts1 as [|attempt rest IH]; intros s; [done|].
  rewrite <- app_comm_cons, !attempt_loop_cons.
  destruct (attempt_once _ _ _ _ _ _ s) as [[[d|]|e] s']; [done| |done].
  apply IH.
Qed.

(** Attempts that all failed leave a record of the same shape. *)
Lemma attempt_loop_keeps ticker retries min_delay max_delay attempts :
  ∀ s r s',
    attempt_loop E ticker retries min_delay max_delay attempts s = (r, s') →
    record_for ticker (locals s) →
    record_for ticker (locals s') ∧ heap s' = heap s.
Proof.
  induction attempts as [|attempt rest IH]; intros s r s' Hrun Hrec.
  - by injection Hrun as <- <-.
  - rewrite attempt_loop_cons in Hrun.
    destruct (attempt_once _ _ _ _ _ _ s) as [r1 s1] eqn:Hone.
    destruct (attempt_once_keeps _ _ _ _ _ _ _ _ Hone Hrec) as [Hrec1 Hheap1].
    destruct r1 as [[d|]|e].
    + by injection Hrun as <- <-.
    + destruct (IH _ _ _ Hrun Hrec1) as [? ?]. split; [done|]. congruence.
    + by injection Hrun as <- <-.
Qed.

(** C3. Take any attempt of a call: the attempts [earlier] all failed
    and left the state [s_k].  If the metrics query now answers with a
    display name that is not empty, the call returns at once: the record
    has every field as the response gives it, no error (whatever the
    earlier attempts recorded), and this query is the last event; the
    attempts in [later] are not made. *)
Theorem success_returns_at_once {L} ticker retries min_delay max_delay (s : state L)
    earlier attempt later s_k info :
  range retries = earlier ++ attempt :: later →
  attempt_loop E ticker retries min_delay max_delay earlier
    (State (info_init ticker) (heap s) (history s)) = (Returned None, s_k) →
  yf_ticker_info E (history s_k) ticker = Returned (PyDict info) →
  truthy (default PyNone (info !! "shortName")) = true →
  ∃ d,
    get_stock_info E ticker retries min_delay max_delay s =
      (Returned d, State (locals s) (heap s) (history s_k ++ [YfInfo ticker]))
    ∧ d !! "Ticker" = Some ticker
    ∧ Forall (fun '(key, source) => d !! key = Some (default PyNone (info !! source)))
        field_sources
    ∧ d !! "Error" = Some PyNone.
Proof.
  intros Hrange Hearlier Hresp Hname. exists (success_record ticker info).
  split; [|split; [|split]];
    [| by unfold success_record, populate, info_init; simplify_map_eq
     | repeat constructor; by unfold success_record, populate; simplify_map_eq
     | by unfold success_record; simplify_map_eq].
  destruct (attempt_loop_keeps _ _ _ _ _ _ _ _ Hearlier (record_for_init ticker))
    as [Hrec Hheap]. cbn [heap] in Hheap.
  unfold get_stock_info, call, get_stock_info_body.
  unfold mbind at 1, M_bind at 1.
  rewrite Hrange, attempt_loop_app, Hearlier, attempt_loop_cons.
  unfold attempt_once, try_except. rewrite try_block_run, Hresp. cbn zeta.
  rewrite Hname, (success_record_eq _ _ _ Hrec), Hheap. done.
Qed.

End FetchFacts.

(** ** The strategy filter *)

Section FilterFacts.

Context (np_sort : list keyed_row -> list keyed_row).

Lemma select_rows_fmap (p : indexed_row -> bool) (rows : list indexed_row) :
  select_rows rows (p <$> rows) = filter (fun r => p r = true) rows.
Proof.
  unfold select_rows. induction rows as [|r rows IH]; [done|].
  cbn [fmap list_fmap zip zip_with]. rewrite filter_cons. cbn [snd].
  rewrite (filter_cons _ r rows).
  destruct (decide (p r = true)) as [Hp|Hp]; cbn [fmap list_fmap fst]; by rewrite IH.
Qed.

Lemma mask_and_fmap {A} (p q : A -> bool) (l : list A) :
  mask_and (p <$> l) (q <$> l) = (fun x => p x && q x) <$> l.
Proof. unfold mask_and. induction l as [|x l IH]; [done|]. cbn. by rewrite <- IH. Qed.

Lemma alloc_run {L} (df : DataFrame) (s : state L) :
  alloc df s = (Returned (fresh (dom (heap s))),
                State (locals s) (<[fresh (dom (heap s)) := df]> (heap s)) (history s)).
Proof. done. Qed.

Lemma alloc_fresh (h : gmap nat DataFrame) : h !! fresh (dom h) = None.
Proof. apply not_elem_of_dom, is_fresh. Qed.

Lemma alloc_subseteq (h : gmap nat DataFrame) df : h ⊆ <[fresh (dom h) := df]> h.
Proof. apply insert_subseteq, alloc_fresh. Qed.

(** A recognised strategy: the rows selected go to a new frame, their
    sorted copy to another, which is returned. *)
Lemma select_and_sort_run (rows : list indexed_row) (p : indexed_row -> bool)
    (by_ : stock_record -> option Q) (name : string) (ascending : bool) (s : state unit) :
  ∃ l heap',
    (selected ← getitem_mask (Frame rows) (p <$> rows);
     sort_values np_sort selected by_ name ascending) s =
      (Returned l, State (locals s) heap' (history s))
    ∧ heap s ⊆ heap'
    ∧ heap' !! l =
        Some (Frame (sorted_rows np_sort by_ ascending (filter (fun r => p r = true) rows))).
Proof.
  unfold getitem_mask, sort_values, deref. run. rewrite alloc_run. cbn [heap locals history].
  rewrite lookup_insert_eq, select_rows_fmap, alloc_run. cbn [heap locals history].
  eexists _, _. split; [done|]. split; [|by rewrite lookup_insert_eq].
  etrans; [apply alloc_subseteq|]. apply alloc_subseteq.
Qed.

Lemma filter_by_strategy_run (df : nat) (strategy_type : string) (s : state unit) frame :
  heap s !! df = Some frame →
  ∃ l heap',
    filter_by_strategy np_sort df strategy_type s =
      (Returned l,
       State (locals s) heap' (history s ++ strategy_output np_sort frame strategy_type))
    ∧ heap s ⊆ heap'
    ∧ heap' !! l = Some (strategy_table np_sort frame strategy_type)
    ∧ (df_empty frame = false →
       strategy_rows np_sort (df_rows frame) (py_lower strategy_type) = None → l = df).
Proof.
  intros Hdf. unfold filter_by_strategy, strategy_table, strategy_output, deref.
  unfold mbind at 1, M_bind at 1. rewrite Hdf.
  destruct (df_empty frame) eqn:Hempty.
  { rewrite alloc_run, app_nil_r. eexists _, _. split; [done|].
    split; [apply alloc_subseteq|]. split; [by rewrite lookup_insert_eq|done]. }
  destruct frame as [|rows]; [done|]. cbn [df_rows].
  unfold mbind at 1, M_bind at 1. rewrite alloc_run.
  set (s1 := State _ _ _).
  assert (heap s ⊆ heap s1) as Hs1 by apply alloc_subseteq.
  assert (∀ p by_ name asc,
    ∃ l heap',
      (selected ← getitem_mask (Frame rows) (p <$> rows);
       sort_values np_sort selected by_ name asc) s1 =
        (Returned l, State (locals s) heap' (history s ++ []))
      ∧ heap s ⊆ heap'
      ∧ heap' !! l =
          Some (Frame (sorted_rows np_sort by_ asc (filter (fun r => p r = true) rows)))
      ∧ (false = false → Some (sorted_rows np_sort by_ asc (filter (fun r => p r = true) rows)) = None → l = df))
    as Hbranch.
  { intros p by_ name asc.
    destruct (select_and_sort_run rows p by_ name asc s1) as (l & heap' & Hrun & Hsub & Hl).
    exists l, heap'. rewrite app_nil_r. split; [done|]. split; [by etrans|]. done. }
  unfold strategy_rows, column, lift.
  destruct (String.eqb (py_lower strategy_type) "defensive").
  { unfold mbind at 1 2 3, M_bind at 1 2 3. unfold isin, notna, series_lt.
    rewrite <- !list_fmap_compose, !mask_and_fmap. apply Hbranch. }
  destruct (String.eqb (py_lower strategy_type) "cyclical").
  { unfold mbind at 1 2, M_bind at 1 2. unfold isin, notna.
    rewrite <- !list_fmap_compose, !mask_and_fmap. apply Hbranch. }
  destruct (String.eqb (py_lower strategy_type) "growth").
  { unfold mbind at 1 2 3, M_bind at 1 2 3. unfold isin, notna, series_gt.
    rewrite <- !list_fmap_compose, !mask_and_fmap. apply Hbranch. }
  run. eexists _, _. split; [done|]. split; [done|].
  split; [|done]. by apply (lookup_weaken _ _ _ _ Hdf).
Qed.

(** Sorting loses no row and adds none. *)
Lemma keyed_split (by_ : stock_record -> option Q) (rows : list indexed_row) :
  (omap (with_key by_) rows).*2 ++ filter (fun r : indexed_row => by_ r.2 = None) rows ≡ₚ rows.
Proof.
  induction rows as [|r rows IH]; [done|].
  cbn [omap list_omap]. rewrite filter_cons. unfold with_key at 1.
  destruct (by_ r.2) as [k|].
  - rewrite decide_False by done. cbn. by rewrite IH.
  - rewrite decide_True by done. cbn. by rewrite <- Permutation_middle, IH.
Qed.

Lemma sorted_rows_perm by_ ascending rows :
  sorts np_sort → sorted_rows np_sort by_ ascending rows ≡ₚ rows.
Proof.
  intros Hsort. unfold sorted_rows. etrans; [|apply (keyed_split by_ rows)].
  apply Permutation_app; [|done]. apply fmap_Permutation.
  destruct ascending.
  - apply Hsort.
  - rewrite reverse_Permutation, (proj1 (Hsort _)). apply reverse_Permutation.
Qed.

Lemma with_key_elem by_ (rows : list indexed_row) (kr : keyed_row) :
  kr ∈ omap (with_key by_) rows → by_ kr.2.2 = Some kr.1.
Proof.
  rewrite list_elem_of_omap. intros (r & _ & Hr). unfold with_key in Hr.
  destruct (by_ r.2) as [k|] eqn:Hk; [|done]. by injection Hr as <-.
Qed.

Lemma sorted_by_key by_ (l : list keyed_row) :
  Forall (fun kr : keyed_row => by_ kr.2.2 = Some kr.1) l →
  Sorted key_le l → Sorted (ascending_by by_) l.*2.
Proof.
  intros Hkeys Hsorted. induction Hsorted as [|kr l Hl IH Hhd]; [constructor|].
  apply Forall_cons in Hkeys as [Hkr Hkeys]. cbn. constructor; [by apply IH|].
  destruct Hhd as [|kr' l' Hle]; [constructor|]. cbn. constructor.
  apply Forall_cons in Hkeys as [Hkr' _].
  unfold ascending_by. by rewrite Hkr, Hkr'.
Qed.

Lemma filter_none_nil (by_ : stock_record -> option Q) (rows : list indexed_row) :
  Forall (fun r : indexed_row => is_Some (by_ r.2)) rows →
  filter (fun r : indexed_row => by_ r.2 = None) rows = [].
Proof.
  intros Hall. induction Hall as [|r rows Hr _ IH]; [done|].
  destruct Hr as [k Hk]. rewrite filter_cons, IH.
  destruct (decide (by_ r.2 = None)) as [Hnone|]; [congruence|done].
Qed.

Lemma keys_of_sorted by_ (rows : list indexed_row) (l : list keyed_row) :
  l ≡ₚ omap (with_key by_) rows →
  Forall (fun kr : keyed_row => by_ kr.2.2 = Some kr.1) l.
Proof.
  intros Hperm. apply Forall_forall. intros kr Hkr.
  apply (with_key_elem by_ rows). by rewrite <- Hperm.
Qed.

(** When every row has the key, the result is in the order asked for. *)
Lemma sorted_rows_sorted by_ (ascending : bool) rows :
  sorts np_sort →
  Forall (fun r : indexed_row => is_Some (by_ r.2)) rows →
  Sorted (if ascending then ascending_by by_ else descending_by by_)
         (sorted_rows np_sort by_ ascending rows).
Proof.
  intros Hsort Hall. unfold sorted_rows.
  rewrite (filter_none_nil _ _ Hall), app_nil_r.
  destruct ascending.
  - destruct (Hsort (omap (with_key by_) rows)) as [Hperm Hsorted].
    apply sorted_by_key; [|done]. by apply (keys_of_sorted by_ rows).
  - destruct (Hsort (reverse (omap (with_key by_) rows))) as [Hperm Hsorted].
    rewrite fmap_reverse.
    apply (Sorted_reverse (ascending_by by_)), sorted_by_key; [|done].
    apply (keys_of_sorted by_ rows). by rewrite Hperm, reverse_Permutation.
Qed.

Lemma in_sectors_spec sectors r :
  in_sectors sectors r = true ↔ ∃ sector, col_Sector r = Some sector ∧ sector ∈ sectors.
Proof.
  unfold in_sectors. destruct (col_Sector r) as [sector|].
  - rewrite bool_decide_eq_true. split; [eauto|]. by intros (? & [= <-] & ?).
  - split; [done|]. by intros (? & ? & ?).
Qed.

Lemma Qlt_bool_iff (a b : Q) : Qlt_bool a b = true ↔ (a < b)%Q.
Proof.
  unfold Qlt_bool. rewrite negb_true_iff. split.
  - intros H. apply Qnot_le_lt. intros Hle. apply Qle_bool_iff in Hle. congruence.
  - intros H. destruct (Qle_bool b a) eqn:Hle; [|done].
    apply Qle_bool_iff in Hle. by apply Qlt_not_le in H.
Qed.

Lemma defensive_row_spec (r : indexed_row) :
  defensive_row r = true ↔
  (∃ sector, col_Sector r.2 = Some sector ∧ sector ∈ defensive_sectors)
  ∧ ∃ pe, col_PE_Ratio r.2 = Some pe ∧ (pe < 20)%Q.
Proof.
  unfold defensive_row. rewrite !andb_true_iff, in_sectors_spec.
  destruct (col_PE_Ratio r.2) as [pe|]; cbn [present].
  - rewrite Qlt_bool_iff. split.
    + intros [[? _] ?]. eauto.
    + intros [? (? & [= <-] & ?)]. done.
  - split; [by intros [_ ?]|]. by intros [_ (? & ? & _)].
Qed.

(** C5. On every table "defensive" answers with a new frame that holds
    exactly the rows whose sector is one of Healthcare, Utilities,
    Consumer Defensive, Communication Services and whose PE ratio is
    there and below 20 (a row without a PE ratio is never one of them),
    in ascending order of the PE ratio. *)
Theorem defensive_selects_and_sorts (df : nat) (s : state unit) frame :
  sorts np_sort →
  heap s !! df = Some frame →
  ∃ l s' out,
    filter_by_strategy np_sort df "defensive" s = (Returned l, s')
    ∧ heap s' !! l = Some out
    ∧ df_rows out ≡ₚ filter (fun r => defensive_row r = true) (df_rows frame)
    ∧ (∀ r, r ∈ df_rows out ↔
         r ∈ df_rows frame
         ∧ (∃ sector, col_Sector r.2 = Some sector
              ∧ sector ∈ ["Healthcare"; "Utilities"; "Consumer Defensive";
                          "Communication Services"])
         ∧ ∃ pe, col_PE_Ratio r.2 = Some pe ∧ (pe < 20)%Q)
    ∧ Sorted (ascending_by col_PE_Ratio) (df_rows out).
Proof.
  intros Hsort Hdf.
  destruct (filter_by_strategy_run df "defensive" s frame Hdf)
    as (l & heap' & Hrun & _ & Hl & _).
  eexists l, _, _. split; [exact Hrun|]. split; [exact Hl|].
  assert (df_rows (strategy_table np_sort frame "defensive") ≡ₚ
          filter (fun r => defensive_row r = true) (df_rows frame)) as Hperm.
  { unfold strategy_table. destruct (df_empty frame) eqn:Hempty.
    - unfold df_empty in Hempty. by destruct (df_rows frame).
    - cbn. by apply sorted_rows_perm. }
  split; [done|]. split.
  - intros r. rewrite Hperm, list_elem_of_filter, defensive_row_spec. tauto.
  - unfold strategy_table. destruct (df_empty frame); [constructor|]. cbn.
    apply (sorted_rows_sorted col_PE_Ratio true); [done|].
    apply Forall_forall. intros r [Hr _]%list_elem_of_filter.
    apply defensive_row_spec in Hr as [_ (pe & -> & _)]. done.
Qed.

Lemma strategy_rows_unknown rows name :
  name ∉ strategy_names → strategy_rows np_sort rows name = None.
Proof.
  unfold strategy_names. rewrite !not_elem_of_cons. intros (H1 & H2 & H3 & _).
  unfold strategy_rows.
  by rewrite (proj2 (String.eqb_neq _ _) H1), (proj2 (String.eqb_neq _ _) H2),
    (proj2 (String.eqb_neq _ _) H3).
Qed.

Lemma strategy_rows_known rows name :
  name ∈ strategy_names → is_Some (strategy_rows np_sort rows name).
Proof.
  unfold strategy_names. rewrite !elem_of_cons, elem_of_nil.
  intros [->|[->|[->|[]]]]; by eexists.
Qed.

(** C4, amended. On a table with at least one row, a strategy name that
    in lower case is none of "defensive", "cyclical", "growth" makes
    [filter_by_strategy] print the warning and return the very table it
    was given, which is as it was. *)
Theorem unknown_strategy_returns_input (df : nat) (strategy_type : string)
    (s : state unit) frame :
  heap s !! df = Some frame →
  df_empty frame = false →
  py_lower strategy_type ∉ strategy_names →
  ∃ heap',
    filter_by_strategy np_sort df strategy_type s =
      (Returned df,
       State (locals s) heap' (history s ++ [Print (MsgUnknownStrategy strategy_type)]))
    ∧ heap' !! df = Some frame.
Proof.
  intros Hdf Hempty Hname.
  destruct (filter_by_strategy_run df strategy_type s frame Hdf)
    as (l & heap' & Hrun & Hsub & Hl & Hsame).
  pose proof (strategy_rows_unknown (df_rows frame) _ Hname) as Hnone.
  rewrite (Hsame Hempty Hnone) in Hrun.
  unfold strategy_output in Hrun. rewrite Hempty, Hnone in Hrun.
  exists heap'. split; [done|]. by apply (lookup_weaken _ _ _ _ Hdf).
Qed.

(** C9. The answer of [filter_by_strategy] is a function of the table
    and the strategy name, [strategy_table], and so is what it prints;
    the call leaves every frame that existed as it was, the input among
    them; a second call with the same arguments answers with an equal
    table and prints the same. *)
Theorem filter_by_strategy_pure (df : nat) (strategy_type : string)
    (s : state unit) frame :
  heap s !! df = Some frame →
  ∃ l1 s1 l2 s2,
    filter_by_strategy np_sort df strategy_type s = (Returned l1, s1)
    ∧ filter_by_strategy np_sort df strategy_type s1 = (Returned l2, s2)
    ∧ heap s1 !! l1 = Some (strategy_table np_sort frame strategy_type)
    ∧ heap s2 !! l2 = Some (strategy_table np_sort frame strategy_type)
    ∧ history s1 = history s ++ strategy_output np_sort frame strategy_type
    ∧ history s2 = history s1 ++ strategy_output np_sort frame strategy_type
    ∧ heap s ⊆ heap s1 ∧ heap s1 ⊆ heap s2
    ∧ heap s1 !! df = Some frame ∧ heap s2 !! df = Some frame.
Proof.
  intros Hdf.
  destruct (filter_by_strategy_run df strategy_type s frame Hdf)
    as (l1 & heap1 & Hrun1 & Hsub1 & Hl1 & _).
  pose proof (lookup_weaken _ _ _ _ Hdf Hsub1) as Hdf1.
  set (s1 := State (locals s) heap1 (history s ++ strategy_output np_sort frame strategy_type)).
  destruct (filter_by_strategy_run df strategy_type s1 frame Hdf1)
    as (l2 & heap2 & Hrun2 & Hsub2 & Hl2 & _).
  pose proof (lookup_weaken _ _ _ _ Hdf1 Hsub2) as Hdf2.
  eexists l1, s1, l2, _. split; [exact Hrun1|]. split; [exact Hrun2|]. done.
Qed.

Lemma ascii_lower_upper (c : ascii) : ascii_lower (ascii_upper c) = ascii_lower c.
Proof. by destruct c as [[] [] [] [] [] [] [] []]. Qed.

Lemma ascii_lower_idemp (c : ascii) : ascii_lower (ascii_lower c) = ascii_lower c.
Proof. by destruct c as [[] [] [] [] [] [] [] []]. Qed.

Lemma casing_of_lower (s name : string) :
  casing_of s name → py_lower s = py_lower name.
Proof.
  revert name. induction s as [|a s IH]; intros [|b name]; cbn; try done.
  intros [[->| ->] Hrest]; rewrite ?ascii_lower_upper; by rewrite (IH name).
Qed.

(** C10. A strategy name written in any mix of upper and lower case is
    taken for the strategy: the call does what it does for the name in
    lower case, and prints no warning. *)
Theorem strategy_name_any_case (df : nat) (strategy_type name : string)
    (s : state unit) frame :
  name ∈ strategy_names →
  casing_of strategy_type name →
  heap s !! df = Some frame →
  filter_by_strategy np_sort df strategy_type s = filter_by_strategy np_sort df name s
  ∧ history (filter_by_strategy np_sort df strategy_type s).2 = history s
  ∧ (df_empty frame = false →
     ∃ l rows, (filter_by_strategy np_sort df strategy_type s).1 = Returned l
       ∧ strategy_rows np_sort (df_rows frame) name = Some rows
       ∧ heap (filter_by_strategy np_sort df strategy_type s).2 !! l = Some (Frame rows)).
Proof.
  intros Hname Hcase Hdf.
  assert (py_lower strategy_type = name) as Hlower.
  { rewrite (casing_of_lower _ _ Hcase). revert Hname. unfold strategy_names.
    rewrite !elem_of_cons, elem_of_nil. by intros [->|[->|[->|[]]]]. }
  destruct (strategy_rows_known (df_rows frame) name Hname) as [rows Hrows].
  destruct (filter_by_strategy_run df strategy_type s frame Hdf)
    as (l & heap' & Hrun & _ & Hl & _).
  split; [|split].
  - unfold filter_by_strategy. rewrite Hlower. revert Hname. unfold strategy_names.
    rewrite !elem_of_cons, elem_of_nil. by intros [->|[->|[->|[]]]].
  - rewrite Hrun. cbn [snd history]. unfold strategy_output. rewrite Hlower, Hrows.
    destruct (df_empty frame); by rewrite app_nil_r.
  - intros Hempty. rewrite Hrun. cbn [fst snd heap]. exists l, rows.
    split; [done|]. split; [done|]. rewrite Hl. unfold strategy_table.
    by rewrite Hempty, Hlower, Hrows.
Qed.

End FilterFacts.

Lemma merge_sort_rows_sorts : sorts merge_sort_rows.
Proof.
  intros l. split; [apply merge_sort_Permutation|].
  apply Sorted_merge_sort. intros a b. unfold key_le.
  destruct (Qlt_le_dec b.1 a.1) as [H|H]; [right|left].
  - by apply Qlt_le_weak.
  - done.
Qed.


(** ** The main block *)

Section MainFacts.

Context (E : environment).

Lemma main_loop_cons company_name rest (s : state (list dict)) :
  main_loop E (company_name :: rest) s =
  match process_company E company_name s with
  | (Returned _, s') => main_loop E rest s'
  | (Raised e, s') => (Raised e, s')
  end.
Proof. done. Qed.

Lemma main_loop_app companies1 companies2 (s : state (list dict)) :
  main_loop E (companies1 ++ companies2) s =
  match main_loop E companies1 s with
  | (Returned _, s') => main_loop E companies2 s'
  | (Raised e, s') => (Raised e, s')
  end.
Proof.
  revert s. induction companies1 as [|c rest IH]; intros s; [done|].
  rewrite <- app_comm_cons, !main_loop_cons.
  destruct (process_company E c s) as [[[]|e] s1]; [apply IH|done].
Qed.

(** The tail of an iteration, lines 352-353, leaves the records alone. *)
Lemma pause_locals (s : state (list dict)) r s' :
  (sleep_time ← random_uniform E 3 8; time_sleep sleep_time) s = (r, s') →
  locals s' = locals s.
Proof.
  unfold random_uniform, time_sleep. run.
  destruct (_ || _); [|destruct (Qle_bool 0 _)]; by intros [= <- <-].
Qed.

(** An iteration adds at most one record, under the name of its company;
    it adds none when the ticker is not a true value. *)
Lemma process_company_locals company_name (s : state (list dict)) r s' :
  process_company E company_name s = (r, s') →
  locals s' = locals s
  ∨ (∃ ticker info,
       (get_ticker E company_name (State tt (heap s) (history s))).1 = Returned ticker
       ∧ truthy ticker = true
       ∧ locals s' = locals s ++ [<[OCN := PyStr company_name]> info]).
Proof.
  unfold process_company. unfold mbind at 1, M_bind at 1. unfold call at 1.
  destruct (get_ticker E company_name _) as [[ticker|e] s1]; cbn [fst];
    [|intros [= <- <-]; by left].
  unfold mbind at 1, M_bind at 1.
  destruct (truthy ticker) eqn:Hticker.
  2:{ unfold mret at 1, M_ret at 1. intros H%pause_locals. by left. }
  unfold mbind at 1, M_bind at 1. unfold get_stock_info, call.
  destruct (get_stock_info_body E ticker 3 3 8 _) as [[info|e] s2];
    [|intros [= <- <-]; by left].
  unfold get_locals, set_locals, lift, print, emit, mret, M_ret.
  unfold mbind at 1 2 3, M_bind at 1 2 3. cbn [locals heap history].
  destruct (getitem _ "Error") as [error|e].
  - destruct (truthy error); intros H%pause_locals; right; exists ticker, info; done.
  - intros [= <- <-]. right. exists ticker, info. done.
Qed.

(** Whatever the loop adds carries the name of one of its companies. *)
Lemma main_loop_names companies :
  ∀ (s : state (list dict)) r s',
    main_loop E companies s = (r, s') →
    ∃ added,
      locals s' = locals s ++ added
      ∧ Forall (fun d : dict => ∃ c, c ∈ companies ∧ d !! OCN = Some (PyStr c)) added.
Proof.
  induction companies as [|c rest IH]; intros s r s' Hrun.
  - injection Hrun as <- <-. exists []. by rewrite app_nil_r.
  - rewrite main_loop_cons in Hrun.
    destruct (process_company E c s) as [r1 s1] eqn:Hone.
    assert (∃ added1, locals s1 = locals s ++ added1
      ∧ Forall (fun d : dict => ∃ c', c' ∈ c :: rest ∧ d !! OCN = Some (PyStr c')) added1)
      as (added1 & Hloc1 & Hadded1).
    { destruct (process_company_locals _ _ _ _ Hone) as [Hsame|(t & info & _ & _ & Hadd)].
      - exists []. by rewrite app_nil_r.
      - eexists [_]. split; [exact Hadd|]. repeat constructor.
        exists c. split; [by left|]. by rewrite lookup_insert_eq. }
    destruct r1 as [[]|e].
    + destruct (IH _ _ _ Hrun) as (added2 & Hloc2 & Hadded2).
      exists (added1 ++ added2). rewrite Hloc2, Hloc1, app_assoc. split; [done|].
      apply Forall_app. split; [done|].
      eapply Forall_impl; [exact Hadded2|]. intros d (c' & Hc' & Hd).
      exists c'. split; [by right|done].
    + injection Hrun as <- <-. by exists added1.
Qed.

(** A company whose ticker is not a true value adds no record. *)
Lemma process_company_unresolved company_name (s : state (list dict)) ticker r s' :
  (get_ticker E company_name (State tt (heap s) (history s))).1 = Returned ticker →
  truthy ticker = false →
  process_company E company_name s = (r, s') →
  locals s' = locals s.
Proof.
  intros Hticker Hfalse Hrun.
  destruct (process_company_locals _ _ _ _ Hrun) as [Hsame|(t & info & Ht & Htrue & _)];
    [done|]. rewrite Hticker in Ht. injection Ht as <-. congruence.
Qed.

(** The records of a run in which [company] was reached in state [s_c]
    and got no ticker. *)
Lemma main_loop_unresolved before company after (s s_c : state (list dict)) ticker s' :
  NoDup (before ++ company :: after) →
  locals s = [] →
  main_loop E before s = (Returned tt, s_c) →
  (get_ticker E company (State tt (heap s_c) (history s_c))).1 = Returned ticker →
  truthy ticker = false →
  main_loop E (before ++ company :: after) s = (Returned tt, s') →
  Forall (fun d : dict => d !! OCN ≠ Some (PyStr company)) (locals s').
Proof.
  intros Hnodup Hnil Hbefore Hticker Hfalse Hrun.
  apply NoDup_app in Hnodup as (_ & Hnotin & Hnodup).
  apply NoDup_cons in Hnodup as [Hafter _].
  rewrite main_loop_app, Hbefore, main_loop_cons in Hrun.
  destruct (process_company E company s_c) as [r1 s1] eqn:Hone.
  pose proof (process_company_unresolved _ _ _ _ _ Hticker Hfalse Hone) as Hloc1.
  destruct r1 as [[]|e]; [|done].
  destruct (main_loop_names _ _ _ _ Hbefore) as (added1 & Hadd1 & Hnames1).
  destruct (main_loop_names _ _ _ _ Hrun) as (added2 & Hadd2 & Hnames2).
  rewrite Hadd2, Hloc1, Hadd1, Hnil. cbn [app].
  apply Forall_app. split.
  - eapply Forall_impl; [exact Hnames1|]. intros d (c & Hc & ->) [= ->].
    by apply (Hnotin company); [|left].
  - eapply Forall_impl; [exact Hnames2|]. intros d (c & Hc & ->) [= ->]. done.
Qed.

(** Tables. *)
Lemma select_columns_rows df cols t :
  select_columns df cols = Returned t →
  t_rows t = (fun r : nat * dict => (r.1, project cols r.2)) <$> t_rows df.
Proof.
  unfold select_columns. destruct (filter _ cols); [|done]. by intros [= <-].
Qed.

Lemma table_getitem_mask_rows df mask (ir : nat * dict) :
  ir ∈ t_rows (table_getitem_mask df mask) → ir ∈ t_rows df.
Proof.
  unfold table_getitem_mask. cbn [t_rows].
  intros ([ir' m] & -> & [_ Hzip]%list_elem_of_filter)%list_elem_of_fmap.
  by apply elem_of_zip_l in Hzip.
Qed.

(** Every row of a sheet is a row of the table it was cut from, reduced
    to the display columns. *)
Lemma sheet_from_table df names t (ir : nat * dict) :
  sheet df names = Returned t →
  ir ∈ t_rows t →
  ∃ r0, (ir.1, r0) ∈ t_rows df ∧ ir.2 = project output_cols_for_sheets r0.
Proof.
  unfold sheet, sheet_rows. unfold mbind at 1 2, outcome_bind.
  destruct (column_isin df OCN names) as [mask|e]; [|done].
  intros Hsel%select_columns_rows. rewrite Hsel.
  intros ([i r0] & -> & Hin%table_getitem_mask_rows)%list_elem_of_fmap.
  by exists r0.
Qed.

Lemma project_excel_company (r : dict) :
  project excel_output_cols r !! OCN = Some (default PyNone (r !! OCN)).
Proof. unfold project, excel_output_cols. cbn [fmap list_fmap list_to_map foldr]. by simplify_map_eq. Qed.

(** The rows of the enriched table are the records, in order, reduced
    to the columns of [excel_output_cols]. *)
Lemma enriched_rows records t (ir : nat * dict) :
  select_columns
    (fold_left add_missing_column excel_output_cols (DataFrame_of_records records))
    excel_output_cols = Returned t →
  ir ∈ t_rows t →
  ∃ r0, r0 ∈ records ∧ ir.2 = project excel_output_cols r0.
Proof.
  intros Hsel%select_columns_rows. rewrite Hsel. clear Hsel.
  destruct records as [|r records]; [by intros ?%elem_of_nil|].
  unfold DataFrame_of_records.
  change (fold_left add_missing_column excel_output_cols (Table record_columns ?rows))
    with (Table record_columns rows).
  cbn [t_rows].
  intros ([i r0] & -> & Hin)%list_elem_of_fmap. exists r0. split; [|done].
  apply list_elem_of_lookup in Hin as [j Hj].
  rewrite list_lookup_imap in Hj.
  destruct ((r :: records) !! j) as [r'|] eqn:Hr'; [|done].
  injection Hj as _ <-. by eapply list_elem_of_lookup_2.
Qed.

(** What a completed run of the main block consists of. *)
Lemma main_returned forbes greatplaces (s : state unit) report s' :
  main E forbes greatplaces s = (Returned report, s') →
  ∃ s_l,
    main_loop E (list_of_set E (list_to_set forbes ∪ list_to_set greatplaces))
      (State [] (heap s) (history s)) = (Returned tt, s_l)
    ∧ all_stock_data report = locals s_l
    ∧ select_columns
        (fold_left add_missing_column excel_output_cols
           (DataFrame_of_records (locals s_l)))
        excel_output_cols = Returned (all_stock_data_df report)
    ∧ Forall (fun t => ∃ names, sheet (all_stock_data_df report) names = Returned t)
        [forbes_final_df report; greatplaces_final_df report; common_final_df report].
Proof.
  unfold main. unfold mbind at 1, M_bind at 1. unfold call at 1.
  unfold mbind at 1, M_bind at 1.
  destruct (main_loop E _ _) as [[[]|e] s_l] eqn:Hloop; [|done].
  unfold get_locals at 1. unfold print, emit, lift.
  unfold mbind, M_bind, mret, M_ret. cbn [locals heap history].
  destruct (select_columns _ excel_output_cols) as [df|e] eqn:Hdf; [|done].
  repeat match goal with
  | |- context [match sheet df ?names with _ => _ end] =>
      destruct (sheet df names) eqn:?; [|done]
  end.
  intros [= <- <-]. exists s_l. cbn.
  split; [done|]. split; [done|]. split; [done|].
  repeat constructor; eauto.
Qed.

(** C6. In a run of the main block that reaches [company] (after the
    companies in [before], in state [s_c]) and gets [None] for its
    ticker, no record carries the company's name: none in the list of
    records, none in the enriched table, and every row of the three
    sheets is a row of the enriched table reduced to the display
    columns.  The company may be in both rankings. *)
Theorem unresolved_company_in_no_sheet forbes greatplaces (s : state unit)
    before company after s_c report s' :
  iterates_sets E →
  list_of_set E (list_to_set forbes ∪ list_to_set greatplaces) = before ++ company :: after →
  main_loop E before (State [] (heap s) (history s)) = (Returned tt, s_c) →
  (get_ticker E company (State tt (heap s_c) (history s_c))).1 = Returned PyNone →
  main E forbes greatplaces s = (Returned report, s') →
  Forall (fun d : dict => d !! OCN ≠ Some (PyStr company)) (all_stock_data report)
  ∧ Forall (fun ir : nat * dict => ir.2 !! OCN ≠ Some (PyStr company))
      (t_rows (all_stock_data_df report))
  ∧ Forall (fun t =>
      Forall (fun ir : nat * dict =>
        ∃ r0, (ir.1, r0) ∈ t_rows (all_stock_data_df report)
              ∧ ir.2 = project output_cols_for_sheets r0) (t_rows t))
      [forbes_final_df report; greatplaces_final_df report; common_final_df report].
Proof.
  intros Hiter Horder Hbefore Hnone Hmain.
  destruct (main_returned _ _ _ _ _ Hmain) as (s_l & Hloop & Hrecords & Hdf & Hsheets).
  assert (NoDup (before ++ company :: after)) as Hnodup.
  { rewrite <- Horder, (Hiter _). apply NoDup_elements. }
  rewrite Horder in Hloop.
  pose proof (main_loop_unresolved before company after
                (State [] (heap s) (history s)) s_c PyNone s_l
                Hnodup eq_refl Hbefore Hnone eq_refl Hloop) as Habsent.
  split; [by rewrite Hrecords|]. split.
  - apply Forall_forall. intros ir Hir.
    destruct (enriched_rows _ _ _ Hdf Hir) as (r0 & Hr0 & ->).
    rewrite project_excel_company.
    rewrite Forall_forall in Habsent. specialize (Habsent r0 Hr0).
    intros [= Heq]. destruct (r0 !! OCN) as [v|]; [|done]. cbn in Heq. by subst v.
  - eapply Forall_impl; [exact Hsheets|]. intros t [names Ht].
    apply Forall_forall. intros ir Hir. by eapply sheet_from_table.
Qed.

End MainFacts.

(** * Worked examples *)

Lemma three_failures_keep_last_error_witness :
  ∃ d,
    (get_stock_info E_down (PyStr "ACME") 3 3 8 (start tt)).1 = Returned d
    ∧ d !! "Name" = Some PyNone
    ∧ d !! "Error" = Some (PyStr "third refusal").
Proof.
  destruct (three_failures_keep_last_error E_down (PyStr "ACME") 3 8 (start tt)
              (Exn OtherException "first refusal")
              (Exn OtherException "second refusal")
              (Exn OtherException "third refusal"))
    as (d & Hrun & _ & Hfields & Herror);
    [reflexivity | split; [discriminate | reflexivity] | reflexivity
     | split; [discriminate | reflexivity] | reflexivity |].
  exists d. rewrite Hrun. split; [reflexivity|]. split; [|exact Herror].
  apply Forall_cons in Hfields as [Hname _]. exact Hname.
Defined.

Lemma success_returns_at_once_witness :
  ∃ d,
    (get_stock_info E_up (PyStr "ACME") 3 3 8 (start tt)).1 = Returned d
    ∧ d !! "Name" = Some (PyStr "Acme Corp.")
    ∧ d !! "Error" = Some PyNone
    ∧ count_queries (history (get_stock_info E_up (PyStr "ACME") 3 3 8 (start tt)).2) = 2%nat.
Proof.
  set (s_k := (attempt_loop E_up (PyStr "ACME") 3 3 8 [0]
                 (State (info_init (PyStr "ACME")) ∅ [])).2).
  assert (attempt_loop E_up (PyStr "ACME") 3 3 8 [0]
            (State (info_init (PyStr "ACME")) ∅ []) = (Returned None, s_k)) as Hearlier
    by (vm_compute; reflexivity).
  destruct (success_returns_at_once E_up (PyStr "ACME") 3 3 8 (start tt)
              [0] 1 [2] s_k acme_info eq_refl Hearlier eq_refl eq_refl)
    as (d & Hrun & _ & Hfields & Herror).
  exists d. rewrite Hrun. split; [reflexivity|].
  apply Forall_cons in Hfields as [Hname _].
  split; [exact Hname|]. split; [exact Herror|]. vm_compute. reflexivity.
Defined.

Lemma get_ticker_first_equity_witness :
  (get_ticker E_up "Acme" (start tt)).1 = Returned (PyStr "ACME")
  ∧ (get_ticker E_up "Unlisted Co" (start tt)).1 = Returned PyNone.
Proof.
  split.
  - destruct (get_ticker_first_equity E_up "Acme" (start tt)) as (ua & _ & _ & _ & Hfound).
    exact (Hfound {[ "quotes" := PyList (PyDict <$> acme_quotes) ]} acme_quotes
             eq_refl eq_refl).
  - destruct (get_ticker_first_equity E_up "Unlisted Co" (start tt))
      as (ua & _ & _ & Hfails & _).
    exact (Hfails Timeout "timed out" eq_refl).
Defined.

(** C7 as stated, with "any transport or parse failure", fails when the
    body is JSON of another shape than the resolver reads: an array, an
    object whose "quotes" is null, a candidate that is not an object.
    The handler catches requests exceptions only, and the
    [AttributeError] or [TypeError] reaches the caller. *)
Lemma odd_answers_are_not_caught :
  (get_ticker (E_answering (PyList [])) "Acme" (start tt)).1 =
    Raised (Exn AttributeError "'list' object has no attribute 'get'")
  ∧ (get_ticker (E_answering (PyDict {[ "quotes" := PyNone ]})) "Acme" (start tt)).1 =
    Raised (Exn TypeError "'NoneType' object is not iterable")
  ∧ (get_ticker (E_answering (PyDict {[ "quotes" := PyList [PyStr "ACME"] ]})) "Acme"
       (start tt)).1 =
    Raised (Exn AttributeError "'str' object has no attribute 'get'").
Proof. vm_compute. repeat split. Qed.

(** C4 as stated, with "every input table", fails on a table without
    rows: the call answers with another, new frame that has no columns,
    and prints no warning. *)
Lemma unknown_strategy_on_empty_table :
  filter_by_strategy merge_sort_rows 0 "momentum" (with_table (Frame [])) =
    (Returned 1%nat, State tt (<[1%nat := NoColumns]> {[ 0%nat := Frame [] ]}) [])
  ∧ 1%nat ≠ 0%nat
  ∧ NoColumns ≠ Frame []
  ∧ ∀ heap',
      filter_by_strategy merge_sort_rows 0 "momentum" (with_table (Frame [])) ≠
        (Returned 0%nat,
         State tt heap' (history (with_table (Frame [])) ++ [Print (MsgUnknownStrategy "momentum")])).
Proof.
  assert (filter_by_strategy merge_sort_rows 0 "momentum" (with_table (Frame [])) =
    (Returned 1%nat, State tt (<[1%nat := NoColumns]> {[ 0%nat := Frame [] ]}) [])) as Hrun
    by (vm_compute; reflexivity).
  split; [exact Hrun|]. split; [done|]. split; [done|].
  intros heap'. rewrite Hrun. intros [= ?].
Qed.

Lemma unknown_strategy_returns_input_witness :
  ∃ heap',
    filter_by_strategy merge_sort_rows 0 "Momentum" (with_table (Frame sample_rows)) =
      (Returned 0%nat, State tt heap' ([] ++ [Print (MsgUnknownStrategy "Momentum")]))
    ∧ heap' !! 0%nat = Some (Frame sample_rows).
Proof.
  apply (unknown_strategy_returns_input merge_sort_rows 0 "Momentum"
           (with_table (Frame sample_rows)) (Frame sample_rows)).
  - reflexivity.
  - reflexivity.
  - apply (bool_decide_unpack _). vm_compute. exact I.
Defined.

Lemma defensive_selects_and_sorts_witness :
  ∃ l s' out,
    filter_by_strategy merge_sort_rows 0 "defensive" (with_table (Frame sample_rows)) =
      (Returned l, s')
    ∧ heap s' !! l = Some out
    ∧ df_rows out ≡ₚ filter (fun r => defensive_row r = true) sample_rows
    ∧ (∀ r, r ∈ df_rows out ↔
         r ∈ sample_rows
         ∧ (∃ sector, col_Sector r.2 = Some sector
              ∧ sector ∈ ["Healthcare"; "Utilities"; "Consumer Defensive";
                          "Communication Services"])
         ∧ ∃ pe, col_PE_Ratio r.2 = Some pe ∧ (pe < 20)%Q)
    ∧ Sorted (ascending_by col_PE_Ratio) (df_rows out).
Proof.
  apply (defensive_selects_and_sorts merge_sort_rows 0
           (with_table (Frame sample_rows)) (Frame sample_rows)).
  - exact merge_sort_rows_sorts.
  - reflexivity.
Defined.

Lemma filter_by_strategy_pure_witness :
  ∃ l1 s1 l2 s2,
    filter_by_strategy merge_sort_rows 0 "growth" (with_table (Frame sample_rows)) =
      (Returned l1, s1)
    ∧ filter_by_strategy merge_sort_rows 0 "growth" s1 = (Returned l2, s2)
    ∧ heap s1 !! l1 = heap s2 !! l2
    ∧ heap s2 !! 0%nat = Some (Frame sample_rows).
Proof.
  destruct (filter_by_strategy_pure merge_sort_rows 0 "growth"
              (with_table (Frame sample_rows)) (Frame sample_rows) eq_refl)
    as (l1 & s1 & l2 & s2 & H1 & H2 & Hout1 & Hout2 & _ & _ & _ & _ & _ & Hdf).
  exists l1, s1, l2, s2. rewrite Hout1, Hout2. repeat split; assumption.
Defined.

Lemma strategy_name_any_case_witness :
  filter_by_strategy merge_sort_rows 0 "GROWTH" (with_table (Frame sample_rows)) =
    filter_by_strategy merge_sort_rows 0 "growth" (with_table (Frame sample_rows))
  ∧ filter_by_strategy merge_sort_rows 0 "Defensive" (with_table (Frame sample_rows)) =
    filter_by_strategy merge_sort_rows 0 "defensive" (with_table (Frame sample_rows)).
Proof.
  split.
  - apply (strategy_name_any_case merge_sort_rows 0 "GROWTH" "growth"
             (with_table (Frame sample_rows)) (Frame sample_rows)).
    + apply (bool_decide_unpack _). vm_compute. exact I.
    + cbn. repeat split; first [left; reflexivity | right; reflexivity].
    + reflexivity.
  - apply (strategy_name_any_case merge_sort_rows 0 "Defensive" "defensive"
             (with_table (Frame sample_rows)) (Frame sample_rows)).
    + apply (bool_decide_unpack _). vm_compute. exact I.
    + cbn. repeat split; first [left; reflexivity | right; reflexivity].
    + reflexivity.
Defined.

Lemma unresolved_company_in_no_sheet_witness :
  match sample_run.1 with
  | Returned report =>
      length (all_stock_data report) = 2%nat
      ∧ Forall (fun d : dict => d !! "Original Company Name" ≠ Some (PyStr "Unlisted Co"))
          (all_stock_data report)
      ∧ Forall (fun ir : nat * dict =>
                  ir.2 !! "Original Company Name" ≠ Some (PyStr "Unlisted Co"))
          (t_rows (all_stock_data_df report))
  | Raised _ => False
  end.
Proof.
  destruct sample_run as [[report|e] s'] eqn:Hrun.
  2:{ vm_compute in Hrun. discriminate Hrun. }
  cbn [fst].
  set (s_c := (main_loop E_up ["Globex"] (State [] ∅ [])).2).
  assert (main_loop E_up ["Globex"] (State [] ∅ []) = (Returned tt, s_c)) as Hbefore
    by (vm_compute; reflexivity).
  destruct (unresolved_company_in_no_sheet E_up sample_forbes sample_greatplaces (start tt)
              ["Globex"] "Unlisted Co" ["Initech"] s_c report s')
    as (Hrecords & Hrows & _).
  - intros X. reflexivity.
  - vm_compute. reflexivity.
  - exact Hbefore.
  - vm_compute. reflexivity.
  - exact Hrun.
  - split; [|split; assumption].
    assert (match sample_run.1 with
            | Returned r => length (all_stock_data r)
            | Raised _ => 0%nat
            end = 2%nat) as Hlen by (vm_compute; reflexivity).
    rewrite Hrun in Hlen. exact Hlen.
Defined.

(** The three strategies on the sample table. *)
Example defensive_on_sample :
  returned_labels (filter_by_strategy merge_sort_rows 0 "defensive"
                     (with_table (Frame sample_rows))) = Some [3; 1]%nat.
Proof. vm_compute. reflexivity. Qed.

Example cyclical_on_sample :
  returned_labels (filter_by_strategy merge_sort_rows 0 "cyclical"
                     (with_table (Frame sample_rows))) = Some [6; 5]%nat.
Proof. vm_compute. reflexivity. Qed.

Example growth_on_sample :
  returned_labels (filter_by_strategy merge_sort_rows 0 "growth"
                     (with_table (Frame sample_rows))) = Some [5; 0]%nat.
Proof. vm_compute. reflexivity. Qed.

(** One refusal, then an answer: two queries, one pause in between. *)
Example recovery_trace :
  history (get_stock_info E_up (PyStr "ACME") 3 3 8 (start tt)).2 =
    [ YfInfo (PyStr "ACME");
      Print (MsgRetrying (PyStr "ACME") 1 3 "connection reset" (11 # 2));
      Sleep (11 # 2);
      YfInfo (PyStr "ACME") ].
Proof. vm_compute. reflexivity. Qed.

(** C1. The code breaks the claim, and its own docstring ("It will
    *always* return a dictionary"): the pause before the next attempt
    is taken inside the handler, where nothing catches what
    [time.sleep] raises.  With two attempts allowed, both delay bounds
    at 10^10 seconds and the first query refused, the call makes that
    one query and then raises [OverflowError] to its caller; no
    dictionary is returned. *)
Theorem overlong_delay_escapes :
  let run :=
    get_stock_info E_down (PyStr "ACME") 2 (10000000000 # 1) (10000000000 # 1) (start tt) in
  run.1 = Raised (Exn OverflowError "timestamp too large to convert to C _PyTime_t")
  ∧ count_queries (history run.2) = 1%nat.
Proof. vm_compute. split; reflexivity. Qed.

(** A negative length is refused in the same place, and leaves the
    function in the same way. *)
Example negative_delay_is_refused :
  (get_stock_info E_down (PyStr "ACME") 2 (-2 # 1) (-1 # 1) (start tt)).1 =
    Raised (Exn ValueError "sleep length must be non-negative").
Proof. vm_compute. reflexivity. Qed.

(** No attempt allowed: the record as initialised, no query. *)
Example no_attempt_allowed :
  get_stock_info E_down (PyStr "ACME") 0 3 8 (start tt) =
    (Returned (info_init (PyStr "ACME")), start tt).
Proof. vm_compute. reflexivity. Qed.

(** * Further properties *)

Ltac by_computation := apply (bool_decide_unpack _); by vm_compute.

Section FetchMore.

Context (E : environment).

(** X1 *)
Theorem get_stock_info_no_attempt {L} ticker retries min_delay max_delay (s : state L) :
  retries <= 0 →
  get_stock_info E ticker retries min_delay max_delay s = (Returned (info_init ticker), s).
Proof.
  intros Hretries.
  unfold get_stock_info, call, get_stock_info_body, range.
  replace (Z.to_nat retries) with 0%nat by lia. cbn [seq fmap list_fmap attempt_loop].
  unfold setitem. run. cbn [py_get].
  assert (info_init ticker !! "Error" = Some PyNone) as -> by done.
  cbn [default from_option id]. rewrite insert_id by done. by destruct s.
Qed.

Lemma range_snoc (n : Z) : 0 <= n → range (n + 1) = range n ++ [n].
Proof.
  intros Hn. unfold range. replace (Z.to_nat (n + 1)) with (S (Z.to_nat n)) by lia.
  rewrite seq_S, fmap_app. cbn. do 2 f_equal. lia.
Qed.

(** X2 *)
Theorem nameless_last_attempt_keeps_fields {L} ticker retries min_delay max_delay
    (s : state L) s_k info :
  1 <= retries →
  attempt_loop E ticker retries min_delay max_delay (range (retries - 1))
    (State (info_init ticker) (heap s) (history s)) = (Returned None, s_k) →
  yf_ticker_info E (history s_k) ticker = Returned (PyDict info) →
  truthy (default PyNone (info !! "shortName")) = false →
  ∃ d,
    get_stock_info E ticker retries min_delay max_delay s =
      (Returned d,
       State (locals s) (heap s)
         (history s_k ++ [YfInfo ticker;
                          Print (MsgFailed ticker retries (nameless_error E ticker))]))
    ∧ d !! "Ticker" = Some ticker
    ∧ Forall (fun '(key, source) => d !! key = Some (default PyNone (info !! source)))
        field_sources
    ∧ d !! "Error" = Some (PyStr (nameless_error E ticker)).
Proof.
  intros Hretries Hearlier Hresp Hname.
  destruct (attempt_loop_keeps _ _ _ _ _ _ _ _ _ Hearlier (record_for_init ticker))
    as [[Hticker _] Hheap]. cbn [heap] in Hheap.
  exists (<["Error" := PyStr (nameless_error E ticker)]> (populate info (locals s_k))).
  split; [|split; [|split]];
    [| by unfold populate; simplify_map_eq
     | repeat constructor; by unfold populate; simplify_map_eq
     | by simplify_map_eq].
  unfold get_stock_info, call, get_stock_info_body.
  unfold mbind at 1, M_bind at 1.
  replace retries with (retries - 1 + 1) at 2 by lia.
  rewrite range_snoc by lia.
  rewrite attempt_loop_app, Hearlier, attempt_loop_cons.
  unfold attempt_once, try_except. rewrite try_block_run, Hresp. cbn zeta.
  rewrite Hname, except_block_run. cbn zeta. cbn [locals heap history exn_str].
  rewrite Z.ltb_irrefl. rewrite <- app_assoc, Hheap. done.
Qed.

Lemma pauses_app evs1 evs2 : pauses (evs1 ++ evs2) = pauses evs1 ++ pauses evs2.
Proof. apply omap_app. Qed.

Lemma uniform_between (a b : Q) (u : unit_interval) :
  (a <= b)%Q → (a <= a + (b - a) * u_val u <= b)%Q.
Proof.
  intros Hab. destruct u as [u Hu]. cbn [u_val].
  apply andb_prop in Hu as [H0 H1]. apply Qle_bool_iff in H0.
  assert (u < 1)%Q as Hlt.
  { apply Qnot_le_lt. intros H. apply Qle_bool_iff in H. by rewrite H in H1. }
  split; nra.
Qed.

Lemma no_pause_last evs seconds : pauses evs = [] → last evs ≠ Some (Sleep seconds).
Proof.
  intros Hnone Hlast%last_Some_elem_of.
  assert (seconds ∈ pauses evs) as Hin.
  { apply list_elem_of_omap. by exists (Sleep seconds). }
  rewrite Hnone in Hin. by apply elem_of_nil in Hin.
Qed.

(** One iteration, with the pause it makes: none when it returns, one
    within the bounds when it goes on. *)
Lemma attempt_once_paced ticker retries min_delay max_delay attempt s :
  (0 <= min_delay)%Q → (min_delay <= max_delay)%Q → (max_delay < sleep_limit)%Q →
  ∃ r d evs,
    attempt_once E ticker retries min_delay max_delay attempt s =
      (Returned r, State d (heap s) (history s ++ evs))
    ∧ count_queries evs = 1%nat
    ∧ match r with
      | Some _ => pauses evs = []
      | None => attempt < retries - 1
                ∧ ∃ seconds, pauses evs = [seconds]
                             ∧ (min_delay <= seconds <= max_delay)%Q
      end.
Proof.
  intros Hmin Hle Hmax. unfold attempt_once, try_except. rewrite try_block_run. cbn zeta.
  assert (∀ e d1, ∃ r d evs,
    except_block E ticker retries min_delay max_delay attempt e
      (State d1 (heap s) (history s ++ [YfInfo ticker])) =
      (Returned r, State d (heap s) (history s ++ evs))
    ∧ count_queries evs = 1%nat
    ∧ match r with
      | Some _ => pauses evs = []
      | None => attempt < retries - 1
                ∧ ∃ seconds, pauses evs = [seconds]
                             ∧ (min_delay <= seconds <= max_delay)%Q
      end) as Hexcept.
  { intros e d1. rewrite except_block_run. cbn zeta. cbn [locals heap history].
    destruct (attempt <? retries - 1) eqn:Hlast.
    - pose proof (uniform_between min_delay max_delay
                    (random_random E (history s ++ [YfInfo ticker])) Hle) as Hbetween.
      destruct (sleep_accepts (min_delay + (max_delay - min_delay)
                  * u_val (random_random E (history s ++ [YfInfo ticker]))))
        as [-> ->]; [destruct Hbetween; split; lra|].
      eexists None, _, _. rewrite <- !app_assoc. split; [done|]. split; [done|].
      split; [lia|]. eexists. split; [done|]. exact Hbetween.
    - eexists (Some _), _, _. rewrite <- !app_assoc. done. }
  destruct (yf_ticker_info E (history s) ticker) as [info|e]; [|apply Hexcept].
  destruct info; try apply Hexcept.
  destruct (truthy _); [|apply Hexcept].
  eexists (Some _), _, _. done.
Qed.

Lemma attempt_loop_paced ticker retries min_delay max_delay :
  (0 <= min_delay)%Q → (min_delay <= max_delay)%Q → (max_delay < sleep_limit)%Q →
  ∀ (n a : nat) (s : state dict),
    Z.of_nat (a + S n) = retries →
    ∃ d d' evs,
      attempt_loop E ticker retries min_delay max_delay (Z.of_nat <$> seq a (S n)) s =
        (Returned (Some d), State d' (heap s) (history s ++ evs))
      ∧ (length (pauses evs) + 1 = count_queries evs)%nat
      ∧ Forall (fun seconds => (min_delay <= seconds <= max_delay)%Q) (pauses evs)
      ∧ (∀ seconds, last evs ≠ Some (Sleep seconds)).
Proof.
  intros Hmin Hle Hmax. induction n as [|n IH]; intros a s Hlen;
    rewrite range_seq, attempt_loop_cons;
    destruct (attempt_once_paced ticker retries min_delay max_delay (Z.of_nat a) s
                Hmin Hle Hmax)
      as (r & d & evs & Hrun & Hcount & Hr);
    rewrite Hrun; destruct r as [d1|]; try lia.
  - exists d1, d, evs. rewrite Hr, Hcount. repeat split; [constructor|].
    intros seconds. by apply no_pause_last.
  - exists d1, d, evs. rewrite Hr, Hcount. repeat split; [constructor|].
    intros seconds. by apply no_pause_last.
  - destruct Hr as (_ & seconds & Hpause & Hbetween).
    destruct (IH (S a) (State d (heap s) (history s ++ evs)) ltac:(lia))
      as (d2 & d2' & evs2 & Hrun2 & Hcount2 & Hbounds2 & Hlast2).
    rewrite Hrun2. cbn [heap history]. exists d2, d2', (evs ++ evs2).
    rewrite <- app_assoc. split; [done|].
    rewrite pauses_app, length_app, count_queries_app, Hpause, Hcount. cbn [length].
    split; [lia|]. split; [by constructor|].
    intros x. rewrite last_app.
    destruct (last evs2) as [y|] eqn:Hy; [apply Hlast2|].
    apply last_None in Hy. subst evs2. cbn in Hcount2. lia.
Qed.

(** X3 *)
Theorem get_stock_info_pauses_between_queries {L} ticker retries min_delay max_delay
    (s : state L) :
  1 <= retries →
  (0 <= min_delay)%Q → (min_delay <= max_delay)%Q → (max_delay < sleep_limit)%Q →
  ∃ d evs,
    get_stock_info E ticker retries min_delay max_delay s =
      (Returned d, State (locals s) (heap s) (history s ++ evs))
    ∧ (length (pauses evs) + 1 = count_queries evs)%nat
    ∧ Forall (fun seconds => (min_delay <= seconds <= max_delay)%Q) (pauses evs)
    ∧ (∀ seconds, last evs ≠ Some (Sleep seconds)).
Proof.
  intros Hretries Hmin Hle Hmax.
  unfold get_stock_info, call, get_stock_info_body, range.
  destruct (Z.to_nat retries) as [|n] eqn:Hn; [lia|].
  destruct (attempt_loop_paced ticker retries min_delay max_delay Hmin Hle Hmax n 0
              (State (info_init ticker) (heap s) (history s)) ltac:(lia))
    as (d & d' & evs & Hrun & Hrest).
  unfold mbind at 1, M_bind at 1. rewrite Hrun. cbn [heap history].
  by exists d, evs.
Qed.

(** XRET *)
Theorem get_stock_info_always_returns {L} ticker retries min_delay max_delay
    (s : state L) :
  1 <= retries →
  (0 <= min_delay < sleep_limit)%Q → (0 <= max_delay < sleep_limit)%Q →
  ∃ d evs,
    get_stock_info E ticker retries min_delay max_delay s =
      (Returned d, State (locals s) (heap s) (history s ++ evs))
    ∧ 1 <= Z.of_nat (count_queries evs) <= retries
    ∧ (∀ key, key ∈ info_keys → is_Some (d !! key))
    ∧ d !! "Ticker" = Some ticker.
Proof.
  intros Hretries Hmin Hmax.
  destruct (get_stock_info_returns E ticker retries min_delay max_delay s Hretries Hmin Hmax)
    as (d & evs & Hrun & [Ht Hdom] & Hcount).
  exists d, evs. split; [done|]. split; [lia|]. split; [|done].
  intros key Hkey. apply elem_of_dom. rewrite Hdom, dom_info_init.
  by apply elem_of_list_to_set.
Qed.

End FetchMore.

Section TickerMore.

Context (E : environment).

(** X4 *)
Theorem get_ticker_lets_other_errors_through company_name (s : state unit) :
  ∃ ua, ua ∈ USER_AGENTS ∧
    let response := requests_get_json E (history s) (search_url company_name) ua in
    (∀ e, response = Raised e → is_RequestException e = false →
       (get_ticker E company_name s).1 = Raised e)
    ∧ (∀ res, response = Returned res → (∀ d, res ≠ PyDict d) →
         (get_ticker E company_name s).1 =
           Raised (Exn AttributeError
                     ("'" +:+ type_name res +:+ "' object has no attribute 'get'"))).
Proof.
  destruct (get_ticker_run E company_name s) as (ua & Hua & Hrun).
  exists ua. split; [done|]. rewrite Hrun. cbn [fst].
  split.
  - intros e -> He. unfold ticker_of_response. cbn. by rewrite He.
  - intros res -> Hres. unfold ticker_of_response. cbn [mbind outcome_bind].
    destruct res; try done. by destruct (Hres d).
Qed.

(** X5 *)
Theorem get_ticker_quotes_missing_or_null company_name (s : state unit) :
  ∃ ua, ua ∈ USER_AGENTS ∧
    let response := requests_get_json E (history s) (search_url company_name) ua in
    (∀ top, response = Returned (PyDict top) → top !! "quotes" = None →
       (get_ticker E company_name s).1 = Returned PyNone)
    ∧ (∀ top, response = Returned (PyDict top) → top !! "quotes" = Some PyNone →
         (get_ticker E company_name s).1 =
           Raised (Exn TypeError "'NoneType' object is not iterable")).
Proof.
  destruct (get_ticker_run E company_name s) as (ua & Hua & Hrun).
  exists ua. split; [done|]. rewrite Hrun. cbn [fst].
  split; intros top -> Hq; unfold ticker_of_response;
    cbn [mbind outcome_bind py_get]; by rewrite Hq.
Qed.

End TickerMore.

Section FilterMore.

Context (np_sort : list keyed_row -> list keyed_row).

Lemma cyclical_row_spec (r : indexed_row) :
  cyclical_row r = true ↔
  (∃ sector, col_Sector r.2 = Some sector ∧ sector ∈ cyclical_sectors)
  ∧ ∃ cap, col_Market_Cap r.2 = Some cap.
Proof.
  unfold cyclical_row. rewrite andb_true_iff, in_sectors_spec.
  destruct (col_Market_Cap r.2) as [cap|]; cbn [present].
  - split; [intros [? _]; eauto|]. by intros [? _].
  - split; [by intros [_ ?]|]. by intros [_ [? ?]].
Qed.

Lemma growth_row_spec (r : indexed_row) :
  growth_row r = true ↔
  (∃ sector, col_Sector r.2 = Some sector ∧ sector ∈ growth_sectors)
  ∧ ∃ pe, col_PE_Ratio r.2 = Some pe ∧ (25 < pe)%Q.
Proof.
  unfold growth_row. rewrite !andb_true_iff, in_sectors_spec.
  destruct (col_PE_Ratio r.2) as [pe|]; cbn [present].
  - rewrite Qlt_bool_iff. split.
    + intros [[? _] ?]. eauto.
    + intros [? (? & [= <-] & ?)]. done.
  - split; [by intros [_ ?]|]. by intros [_ (? & ? & _)].
Qed.

(** X6 *)
Theorem cyclical_selects_and_sorts (df : nat) (s : state unit) frame :
  sorts np_sort →
  heap s !! df = Some frame →
  ∃ l s' out,
    filter_by_strategy np_sort df "cyclical" s = (Returned l, s')
    ∧ heap s' !! l = Some out
    ∧ df_rows out ≡ₚ filter (fun r => cyclical_row r = true) (df_rows frame)
    ∧ (∀ r, r ∈ df_rows out ↔
         r ∈ df_rows frame
         ∧ (∃ sector, col_Sector r.2 = Some sector ∧ sector ∈ cyclical_sectors)
         ∧ ∃ cap, col_Market_Cap r.2 = Some cap)
    ∧ Sorted (descending_by col_Market_Cap) (df_rows out).
Proof.
  intros Hsort Hdf.
  destruct (filter_by_strategy_run np_sort df "cyclical" s frame Hdf)
    as (l & heap' & Hrun & _ & Hl & _).
  eexists l, _, _. split; [exact Hrun|]. split; [exact Hl|].
  assert (df_rows (strategy_table np_sort frame "cyclical") ≡ₚ
          filter (fun r => cyclical_row r = true) (df_rows frame)) as Hperm.
  { unfold strategy_table. destruct (df_empty frame) eqn:Hempty.
    - unfold df_empty in Hempty. by destruct (df_rows frame).
    - cbn. by apply sorted_rows_perm. }
  split; [done|]. split.
  - intros r. rewrite Hperm, list_elem_of_filter, cyclical_row_spec. tauto.
  - unfold strategy_table. destruct (df_empty frame); [constructor|]. cbn.
    apply (sorted_rows_sorted np_sort col_Market_Cap false); [done|].
    apply Forall_forall. intros r [Hr _]%list_elem_of_filter.
    apply cyclical_row_spec in Hr as [_ (cap & ->)]. done.
Qed.

(** X7 *)
Theorem growth_selects_and_sorts (df : nat) (s : state unit) frame :
  sorts np_sort →
  heap s !! df = Some frame →
  ∃ l s' out,
    filter_by_strategy np_sort df "growth" s = (Returned l, s')
    ∧ heap s' !! l = Some out
    ∧ df_rows out ≡ₚ filter (fun r => growth_row r = true) (df_rows frame)
    ∧ (∀ r, r ∈ df_rows out ↔
         r ∈ df_rows frame
         ∧ (∃ sector, col_Sector r.2 = Some sector ∧ sector ∈ growth_sectors)
         ∧ ∃ pe, col_PE_Ratio r.2 = Some pe ∧ (25 < pe)%Q)
    ∧ Sorted (descending_by col_PE_Ratio) (df_rows out).
Proof.
  intros Hsort Hdf.
  destruct (filter_by_strategy_run np_sort df "growth" s frame Hdf)
    as (l & heap' & Hrun & _ & Hl & _).
  eexists l, _, _. split; [exact Hrun|]. split; [exact Hl|].
  assert (df_rows (strategy_table np_sort frame "growth") ≡ₚ
          filter (fun r => growth_row r = true) (df_rows frame)) as Hperm.
  { unfold strategy_table. destruct (df_empty frame) eqn:Hempty.
    - unfold df_empty in Hempty. by destruct (df_rows frame).
    - cbn. by apply sorted_rows_perm. }
  split; [done|]. split.
  - intros r. rewrite Hperm, list_elem_of_filter, growth_row_spec. tauto.
  - unfold strategy_table. destruct (df_empty frame); [constructor|]. cbn.
    apply (sorted_rows_sorted np_sort col_PE_Ratio false); [done|].
    apply Forall_forall. intros r [Hr _]%list_elem_of_filter.
    apply growth_row_spec in Hr as [_ (pe & -> & _)]. done.
Qed.

(** Where the answer lives: the input itself for an unknown name on a
    table with rows, a frame that did not exist before otherwise. *)
Lemma filter_by_strategy_place (df : nat) (strategy_type : string) (s : state unit) frame :
  heap s !! df = Some frame →
  ∃ l s',
    filter_by_strategy np_sort df strategy_type s = (Returned l, s')
    ∧ if df_empty frame then l ∉ dom (heap s)
      else match strategy_rows np_sort (df_rows frame) (py_lower strategy_type) with
           | Some _ => l ∉ dom (heap s)
           | None => l = df
           end.
Proof.
  intros Hdf. unfold filter_by_strategy, deref.
  unfold mbind at 1, M_bind at 1. rewrite Hdf.
  destruct (df_empty frame) eqn:Hempty.
  { rewrite alloc_run. eexists _, _. split; [done|]. apply is_fresh. }
  destruct frame as [|rows]; [done|]. cbn [df_rows].
  unfold mbind at 1, M_bind at 1. rewrite alloc_run.
  set (s1 := State _ _ _).
  assert (∀ p by_ name asc,
    ∃ l s',
      (selected ← getitem_mask (Frame rows) (p <$> rows);
       sort_values np_sort selected by_ name asc) s1 = (Returned l, s')
      ∧ l ∉ dom (heap s)) as Hbranch.
  { intros p by_ name asc. unfold getitem_mask, sort_values, deref. run.
    rewrite alloc_run. cbn [heap locals history].
    rewrite lookup_insert_eq, alloc_run. cbn [heap locals history].
    set (h2 := <[fresh (dom (heap s1)) := Frame (select_rows rows (p <$> rows))]> (heap s1)).
    eexists _, _. split; [done|].
    assert (heap s ⊆ h2) as Hsub.
    { etrans; [apply alloc_subseteq|]. apply alloc_subseteq. }
    intros [x Hx]%elem_of_dom. apply (is_fresh (dom h2)), elem_of_dom. exists x.
    by eapply lookup_weaken. }
  unfold strategy_rows, column, lift.
  destruct (String.eqb (py_lower strategy_type) "defensive").
  { unfold mbind at 1 2 3, M_bind at 1 2 3. unfold isin, notna, series_lt.
    rewrite <- !list_fmap_compose, !mask_and_fmap. apply Hbranch. }
  destruct (String.eqb (py_lower strategy_type) "cyclical").
  { unfold mbind at 1 2, M_bind at 1 2. unfold isin, notna.
    rewrite <- !list_fmap_compose, !mask_and_fmap. apply Hbranch. }
  destruct (String.eqb (py_lower strategy_type) "growth").
  { unfold mbind at 1 2 3, M_bind at 1 2 3. unfold isin, notna, series_gt.
    rewrite <- !list_fmap_compose, !mask_and_fmap. apply Hbranch. }
  run. eexists _, _. split; done.
Qed.

End FilterMore.

Section FilterMore2.

Context (np_sort : list keyed_row -> list keyed_row).

(** X8 *)
Theorem empty_table_gives_new_empty_frame (df : nat) (strategy_type : string)
    (s : state unit) frame :
  heap s !! df = Some frame →
  df_empty frame = true →
  ∃ l s',
    filter_by_strategy np_sort df strategy_type s = (Returned l, s')
    ∧ (l ∉ dom (heap s))
    ∧ heap s' !! l = Some NoColumns
    ∧ heap s' !! df = Some frame
    ∧ history s' = history s.
Proof.
  intros Hdf Hempty.
  destruct (filter_by_strategy_run np_sort df strategy_type s frame Hdf)
    as (l & heap' & Hrun & Hsub & Hl & _).
  destruct (filter_by_strategy_place np_sort df strategy_type s frame Hdf)
    as (l' & s' & Hrun' & Hplace).
  rewrite Hrun in Hrun'. injection Hrun' as <- <-. rewrite Hempty in Hplace.
  unfold strategy_table, strategy_output in *. rewrite Hempty in *.
  eexists l, _. split; [exact Hrun|]. cbn [heap history].
  split; [done|]. split; [done|]. split; [by eapply lookup_weaken|]. by rewrite app_nil_r.
Qed.

(** X9 *)
Theorem recognised_strategy_returns_new_frame (df : nat) (strategy_type : string)
    (s : state unit) frame :
  heap s !! df = Some frame →
  df_empty frame = false →
  py_lower strategy_type ∈ strategy_names →
  ∃ l s',
    filter_by_strategy np_sort df strategy_type s = (Returned l, s')
    ∧ (l ∉ dom (heap s))
    ∧ l ≠ df
    ∧ heap s' !! df = Some frame.
Proof.
  intros Hdf Hempty Hname.
  destruct (filter_by_strategy_run np_sort df strategy_type s frame Hdf)
    as (l & heap' & Hrun & Hsub & Hl & _).
  destruct (filter_by_strategy_place np_sort df strategy_type s frame Hdf)
    as (l' & s' & Hrun' & Hplace).
  rewrite Hrun in Hrun'. injection Hrun' as <- <-. rewrite Hempty in Hplace.
  destruct (strategy_rows_known np_sort (df_rows frame) _ Hname) as [rows Hrows].
  rewrite Hrows in Hplace.
  eexists l, _. split; [exact Hrun|]. cbn [heap].
  split; [done|]. split; [|by eapply lookup_weaken].
  intros ->. apply Hplace, elem_of_dom. by eexists.
Qed.

Lemma defensive_growth_disjoint (r : indexed_row) :
  defensive_row r = true → growth_row r = true → False.
Proof.
  rewrite defensive_row_spec, growth_row_spec.
  intros [_ (pe & Hpe & Hlow)] [_ (pe' & Hpe' & Hhigh)].
  rewrite Hpe in Hpe'. injection Hpe' as <-. lra.
Qed.

(** X10 *)
Theorem defensive_and_growth_share_no_row (df : nat) (s1 s2 : state unit) frame
    l1 s1' l2 s2' out1 out2 :
  sorts np_sort →
  heap s1 !! df = Some frame →
  heap s2 !! df = Some frame →
  filter_by_strategy np_sort df "defensive" s1 = (Returned l1, s1') →
  filter_by_strategy np_sort df "growth" s2 = (Returned l2, s2') →
  heap s1' !! l1 = Some out1 →
  heap s2' !! l2 = Some out2 →
  ∀ r, r ∈ df_rows out1 → r ∉ df_rows out2.
Proof.
  intros Hsort Hdf1 Hdf2 Hrun1 Hrun2 Hout1 Hout2 r Hr1 Hr2.
  destruct (filter_by_strategy_run np_sort df "defensive" s1 frame Hdf1)
    as (l & heap' & Hrun & _ & Hl & _).
  rewrite Hrun1 in Hrun. injection Hrun as <- ->. cbn [heap] in Hout1.
  rewrite Hl in Hout1. injection Hout1 as <-.
  destruct (filter_by_strategy_run np_sort df "growth" s2 frame Hdf2)
    as (l & heap'' & Hrun & _ & Hl' & _).
  rewrite Hrun2 in Hrun. injection Hrun as <- ->. cbn [heap] in Hout2.
  rewrite Hl' in Hout2. injection Hout2 as <-.
  assert (df_rows (strategy_table np_sort frame "defensive") ≡ₚ
          filter (fun r => defensive_row r = true) (df_rows frame)) as Hperm1.
  { unfold strategy_table. destruct (df_empty frame) eqn:Hempty.
    - unfold df_empty in Hempty. by destruct (df_rows frame).
    - cbn. by apply sorted_rows_perm. }
  assert (df_rows (strategy_table np_sort frame "growth") ≡ₚ
          filter (fun r => growth_row r = true) (df_rows frame)) as Hperm2.
  { unfold strategy_table. destruct (df_empty frame) eqn:Hempty.
    - unfold df_empty in Hempty. by destruct (df_rows frame).
    - cbn. by apply sorted_rows_perm. }
  rewrite Hperm1 in Hr1. rewrite Hperm2 in Hr2.
  apply list_elem_of_filter in Hr1 as [Hd _], Hr2 as [Hg _].
  by eapply defensive_growth_disjoint.
Qed.

End FilterMore2.

Section MainMore.

Context (E : environment).

Lemma zip_mask_filter {A} (p : A -> bool) (l : list A) :
  fst <$> filter (fun rm : A * bool => rm.2 = true) (zip l (p <$> l)) =
  filter (fun x => p x = true) l.
Proof.
  induction l as [|x l IH]; [done|].
  cbn [fmap list_fmap zip zip_with]. rewrite filter_cons. cbn [snd].
  rewrite (filter_cons _ x l).
  destruct (decide (p x = true)); cbn [fmap list_fmap fst]; by rewrite IH.
Qed.

(** The enriched table always comes out, with the eight columns, one
    row per record. *)
Lemma enriched_table_built (records : list dict) :
  select_columns
    (fold_left add_missing_column excel_output_cols (DataFrame_of_records records))
    excel_output_cols =
  Returned (Table excel_output_cols
              ((fun r : nat * dict => (r.1, project excel_output_cols r.2))
               <$> imap (fun i r => (i, r)) records)).
Proof.
  destruct records as [|r records]; [done|].
  unfold DataFrame_of_records.
  change (fold_left add_missing_column excel_output_cols (Table record_columns ?rows))
    with (Table record_columns rows).
  done.
Qed.

Lemma sheet_built (rows : list (nat * dict)) (names : string -> bool) :
  sheet (Table excel_output_cols rows) names =
  Returned (Table output_cols_for_sheets
              ((fun r : nat * dict => (r.1, project output_cols_for_sheets r.2))
               <$> filter (fun r => in_sheet names r = true) rows)).
Proof.
  unfold sheet, sheet_rows, column_isin. cbn [t_columns t_rows].
  rewrite bool_decide_eq_true_2 by by_computation.
  cbn [mbind outcome_bind]. unfold table_getitem_mask. cbn [t_columns t_rows].
  change (fun r : nat * dict => cell_isin names (default PyNone (r.2 !! OCN)))
    with (in_sheet names).
  rewrite (zip_mask_filter (in_sheet names) rows). done.
Qed.

(** The main block is its loop followed by an assembly that always
    succeeds. *)
Lemma main_run forbes greatplaces (s : state unit) :
  main E forbes greatplaces s =
  match main_loop E (list_of_set E (list_to_set forbes ∪ list_to_set greatplaces))
          (State [] (heap s) (history s)) with
  | (Returned _, s_l) =>
      let r := report_of forbes greatplaces (locals s_l) in
      (Returned r, State (locals s) (heap s_l) (history s_l ++ report_output r))
  | (Raised e, s_l) => (Raised e, State (locals s) (heap s_l) (history s_l))
  end.
Proof.
  unfold main. unfold mbind at 1, M_bind at 1. unfold call at 1.
  unfold mbind at 1, M_bind at 1.
  destruct (main_loop E _ _) as [[[]|e] s_l]; [|done].
  unfold get_locals at 1. rewrite enriched_table_built.
  unfold print, emit, lift. unfold mbind, M_bind, mret, M_ret. cbn [locals heap history].
  rewrite !sheet_built. cbn zeta. unfold report_output, report_of. cbn.
  by rewrite <- !app_assoc.
Qed.

Lemma dom_project (cols : list string) (r : dict) :
  dom (project cols r) = list_to_set cols.
Proof.
  unfold project. rewrite dom_list_to_map_L. f_equal.
  rewrite <- list_fmap_compose. by rewrite list_fmap_id.
Qed.

Lemma sheet_of_shape df names :
  t_columns (sheet_of df names) = output_cols_for_sheets
  ∧ Forall (fun ir : nat * dict => dom ir.2 = list_to_set output_cols_for_sheets)
      (t_rows (sheet_of df names)).
Proof.
  split; [done|]. apply Forall_forall. intros ir.
  unfold sheet_of. cbn [t_rows]. intros (r & -> & _)%list_elem_of_fmap.
  apply dom_project.
Qed.

(** X11 *)
Theorem report_assembly_cannot_fail forbes greatplaces (s : state unit) s_l :
  main_loop E (list_of_set E (list_to_set forbes ∪ list_to_set greatplaces))
    (State [] (heap s) (history s)) = (Returned tt, s_l) →
  ∃ report s',
    main E forbes greatplaces s = (Returned report, s')
    ∧ all_stock_data report = locals s_l
    ∧ t_columns (all_stock_data_df report) = excel_output_cols
    ∧ length (t_rows (all_stock_data_df report)) = length (locals s_l)
    ∧ Forall (fun t =>
        t_columns t = output_cols_for_sheets
        ∧ Forall (fun ir : nat * dict => dom ir.2 = list_to_set output_cols_for_sheets)
            (t_rows t))
        [forbes_final_df report; greatplaces_final_df report; common_final_df report].
Proof.
  intros Hloop. rewrite main_run, Hloop. cbn zeta.
  eexists _, _. split; [done|]. split; [done|]. split; [done|].
  split.
  - cbn. by rewrite length_fmap, length_imap.
  - repeat constructor; apply sheet_of_shape.
Qed.

(** Whatever the loop adds, it adds in the order of its companies, at
    most one record for each. *)
Lemma main_loop_sublist companies :
  ∀ (s : state (list dict)) r s',
    main_loop E companies s = (r, s') →
    ∃ added names,
      locals s' = locals s ++ added
      ∧ Forall2 (fun (d : dict) c => d !! OCN = Some (PyStr c)) added names
      ∧ names `sublist_of` companies.
Proof.
  induction companies as [|c rest IH]; intros s r s' Hrun.
  - injection Hrun as <- <-. exists [], []. by rewrite app_nil_r.
  - rewrite main_loop_cons in Hrun.
    destruct (process_company E c s) as [r1 s1] eqn:Hone.
    assert (∃ added1 names1, locals s1 = locals s ++ added1
      ∧ Forall2 (fun (d : dict) c' => d !! OCN = Some (PyStr c')) added1 names1
      ∧ names1 `sublist_of` [c])
      as (added1 & names1 & Hloc1 & Hadded1 & Hsub1).
    { destruct (process_company_locals _ _ _ _ _ Hone) as [Hsame|(t & info & _ & _ & Hadd)].
      - exists [], []. rewrite app_nil_r. split; [done|]. split; [constructor|].
        apply sublist_nil_l.
      - eexists [_], [c]. split; [exact Hadd|]. split; [|done].
        repeat constructor. by rewrite lookup_insert_eq. }
    destruct r1 as [[]|e].
    + destruct (IH _ _ _ Hrun) as (added2 & names2 & Hloc2 & Hadded2 & Hsub2).
      exists (added1 ++ added2), (names1 ++ names2).
      rewrite Hloc2, Hloc1, app_assoc. split; [done|].
      split; [by apply Forall2_app|].
      by apply (sublist_app names1 [c] names2 rest).
    + injection Hrun as <- <-. exists added1, names1.
      split; [done|]. split; [done|].
      etrans; [exact Hsub1|]. by apply sublist_skip, sublist_nil_l.
Qed.

(** X12 *)
Theorem one_record_per_company_in_order forbes greatplaces (s : state unit) report s' :
  iterates_sets E →
  main E forbes greatplaces s = (Returned report, s') →
  ∃ names,
    Forall2 (fun (d : dict) c => d !! OCN = Some (PyStr c)) (all_stock_data report) names
    ∧ names `sublist_of` list_of_set E (list_to_set forbes ∪ list_to_set greatplaces)
    ∧ NoDup names
    ∧ (∀ c, c ∈ names → c ∈ forbes ∨ c ∈ greatplaces).
Proof.
  intros Hiter. rewrite main_run.
  destruct (main_loop E _ _) as [[[]|e] s_l] eqn:Hloop; [|done].
  cbn zeta. intros [= <- <-].
  destruct (main_loop_sublist _ _ _ _ Hloop) as (added & names & Hloc & Hnames & Hsub).
  cbn [locals app] in Hloc. exists names. cbn [all_stock_data report_of].
  rewrite Hloc. split; [done|]. split; [done|].
  assert (NoDup (list_of_set E (list_to_set forbes ∪ list_to_set greatplaces))) as Hnodup.
  { rewrite (Hiter _). apply NoDup_elements. }
  split; [by eapply sublist_NoDup|].
  intros c Hc. apply (sublist_subseteq _ _ Hsub) in Hc.
  rewrite (Hiter _) in Hc. apply elem_of_elements in Hc.
  apply elem_of_union in Hc as [Hc|Hc]; apply elem_of_list_to_set in Hc; auto.
Qed.

Lemma in_sheet_common forbes greatplaces (r : nat * dict) :
  in_sheet (fun c => bool_decide
              (c ∈ (list_to_set forbes ∩ list_to_set greatplaces : gset string))) r =
  in_sheet (fun c => bool_decide (c ∈ forbes)) r
  && in_sheet (fun c => bool_decide (c ∈ greatplaces)) r.
Proof.
  unfold in_sheet, cell_isin. destruct (default PyNone (r.2 !! OCN)); try done.
  rewrite <- bool_decide_and. apply bool_decide_ext.
  by rewrite elem_of_intersection, !elem_of_list_to_set.
Qed.

Lemma enriched_labels (records : list dict) :
  (t_rows (enriched_table records)).*1 = seq 0 (length records).
Proof.
  unfold enriched_table. cbn [t_rows]. rewrite <- list_fmap_compose.
  apply list_eq. intros i. rewrite list_lookup_fmap, list_lookup_imap.
  destruct (records !! i) as [r|] eqn:Hr; cbn.
  - symmetry. apply lookup_seq. split; [done|]. by eapply lookup_lt_Some.
  - symmetry. apply lookup_seq_ge. by apply lookup_ge_None.
Qed.

Lemma sheet_of_elem df names (ir : nat * dict) :
  ir ∈ t_rows (sheet_of df names) ↔
  ∃ r, r ∈ t_rows df ∧ in_sheet names r = true
       ∧ ir = (r.1, project output_cols_for_sheets r.2).
Proof.
  unfold sheet_of. cbn [t_rows]. rewrite list_elem_of_fmap.
  split.
  - intros (r & -> & [? ?]%list_elem_of_filter). by exists r.
  - intros (r & ? & ? & ->). exists r. split; [done|]. by apply list_elem_of_filter.
Qed.

(** X13 *)
Theorem common_sheet_is_the_intersection forbes greatplaces (s : state unit) report s' :
  main E forbes greatplaces s = (Returned report, s') →
  ∀ ir : nat * dict,
    ir ∈ t_rows (common_final_df report) ↔
    ir ∈ t_rows (forbes_final_df report) ∧ ir ∈ t_rows (greatplaces_final_df report).
Proof.
  rewrite main_run.
  destruct (main_loop E _ _) as [[[]|e] s_l]; [|done].
  cbn zeta. intros [= <- <-] ir. cbn [common_final_df forbes_final_df greatplaces_final_df report_of].
  rewrite !sheet_of_elem. split.
  - intros (r & Hr & Hin & ->). rewrite in_sheet_common in Hin.
    apply andb_prop in Hin as [Hf Hg]. split; by exists r.
  - intros [(r & Hr & Hf & ->) (r' & Hr' & Hg & Heq)].
    injection Heq as Hlabel _.
    assert (r = r') as <-.
    { pose proof (NoDup_seq 0 (length (locals s_l))) as Hnodup.
      rewrite <- enriched_labels in Hnodup.
      apply list_elem_of_lookup in Hr as [i Hi], Hr' as [j Hj].
      assert (i = j).
      { eapply (NoDup_lookup _ i j (r.1)); [exact Hnodup|..];
          rewrite list_lookup_fmap; [by rewrite Hi|by rewrite Hj, Hlabel]. }
      subst j. congruence. }
    exists r. split; [done|]. split; [|done].
    rewrite in_sheet_common. by rewrite Hf, Hg.
Qed.

Lemma project_lookup (cols : list string) (r : dict) (key : string) :
  key ∈ cols → project cols r !! key = Some (default PyNone (r !! key)).
Proof.
  unfold project. induction cols as [|c cols IH]; [by intros ?%elem_of_nil|].
  intros Hkey. cbn [fmap list_fmap list_to_map foldr].
  destruct (decide (c = key)) as [->|Hne].
  - by rewrite lookup_insert_eq.
  - rewrite lookup_insert_ne by done. apply IH.
    apply elem_of_cons in Hkey as [->|]; done.
Qed.

(** A company whose ticker is a true value gets its record, whatever
    the metrics service does. *)
Lemma process_company_resolved company_name (s : state (list dict)) ticker r s' :
  (get_ticker E company_name (State tt (heap s) (history s))).1 = Returned ticker →
  truthy ticker = true →
  process_company E company_name s = (r, s') →
  ∃ info,
    locals s' = locals s ++ [<[OCN := PyStr company_name]> info]
    ∧ info !! "Ticker" = Some ticker.
Proof.
  intros Hticker Htrue. unfold process_company.
  unfold mbind at 1, M_bind at 1. unfold call at 1.
  destruct (get_ticker E company_name _) as [r1 s1]. cbn [fst] in Hticker. subst r1.
  unfold mbind at 1, M_bind at 1. rewrite Htrue.
  unfold mbind at 1, M_bind at 1.
  destruct (get_stock_info_returns E ticker 3 3 8
              (State (locals s) (heap s1) (history s1)))
    as (info & evs & Hrun & [Hinfo _] & _); [done..|].
  rewrite Hrun. cbn [locals heap history].
  unfold get_locals, set_locals, lift, print, emit, mret, M_ret.
  unfold mbind at 1 2 3, M_bind at 1 2 3. cbn [locals heap history].
  destruct (getitem _ "Error") as [error|e].
  - destruct (truthy error); intros H%pause_locals; exists info; done.
  - intros [= <- <-]. by exists info.
Qed.

(** X14 *)
Theorem resolved_company_has_its_row forbes greatplaces (s : state unit)
    before company after s_c ticker report s' :
  list_of_set E (list_to_set forbes ∪ list_to_set greatplaces) = before ++ company :: after →
  main_loop E before (State [] (heap s) (history s)) = (Returned tt, s_c) →
  (get_ticker E company (State tt (heap s_c) (history s_c))).1 = Returned ticker →
  truthy ticker = true →
  main E forbes greatplaces s = (Returned report, s') →
  ∃ i d,
    all_stock_data report !! i = Some d
    ∧ d !! OCN = Some (PyStr company)
    ∧ d !! "Ticker" = Some ticker
    ∧ (∃ row, (i, row) ∈ t_rows (all_stock_data_df report)
              ∧ row !! OCN = Some (PyStr company) ∧ row !! "Ticker" = Some ticker)
    ∧ (company ∈ forbes →
       ∃ row, (i, row) ∈ t_rows (forbes_final_df report) ∧ row !! "Ticker" = Some ticker)
    ∧ (company ∈ greatplaces →
       ∃ row, (i, row) ∈ t_rows (greatplaces_final_df report)
              ∧ row !! "Ticker" = Some ticker).
Proof.
  intros Horder Hbefore Hticker Htrue. rewrite main_run, Horder.
  rewrite main_loop_app, Hbefore, main_loop_cons.
  destruct (process_company E company s_c) as [r1 s1] eqn:Hone.
  destruct (process_company_resolved _ _ _ _ _ Hticker Htrue Hone) as (info & Hloc1 & Hinfo).
  destruct r1 as [[]|e]; [|done].
  destruct (main_loop E after s1) as [[[]|e] s_l] eqn:Hafter; [|done].
  cbn zeta. intros [= <- <-].
  destruct (main_loop_names _ _ _ _ _ Hafter) as (added & Hloc & _).
  set (d := <[OCN := PyStr company]> info).
  set (i := length (locals s_c)).
  assert (locals s_l !! i = Some d) as Hi.
  { rewrite Hloc, Hloc1, <- app_assoc. by apply list_lookup_middle. }
  assert (d !! OCN = Some (PyStr company)) as Hname by apply lookup_insert_eq.
  assert (d !! "Ticker" = Some ticker) as Hd by (unfold d; by rewrite lookup_insert_ne).
  set (row := project excel_output_cols d).
  assert ((i, row) ∈ t_rows (enriched_table (locals s_l))) as Hrow.
  { unfold enriched_table. cbn [t_rows]. apply list_elem_of_fmap. exists (i, d).
    split; [done|]. apply list_elem_of_lookup. exists i.
    by rewrite list_lookup_imap, Hi. }
  assert (row !! OCN = Some (PyStr company)) as Hrowname.
  { unfold row. rewrite project_lookup by by_computation. by rewrite Hname. }
  assert (row !! "Ticker" = Some ticker) as Hrowticker.
  { unfold row. rewrite project_lookup by by_computation. by rewrite Hd. }
  assert (∀ names : string → bool, names company = true →
    ∃ row', (i, row') ∈ t_rows (sheet_of (enriched_table (locals s_l)) names)
            ∧ row' !! "Ticker" = Some ticker) as Hsheet.
  { intros names Hnames. exists (project output_cols_for_sheets row). split.
    - apply sheet_of_elem. exists (i, row). split; [done|]. split; [|done].
      unfold in_sheet. cbn [snd]. by rewrite Hrowname.
    - rewrite project_lookup by by_computation. by rewrite Hrowticker. }
  exists i, d. cbn [all_stock_data all_stock_data_df forbes_final_df greatplaces_final_df
                    report_of].
  split; [done|]. split; [done|]. split; [done|]. split; [by exists row|].
  split; intros Hin; apply Hsheet; by apply bool_decide_eq_true.
Qed.

End MainMore.

Module NormalizerMore.
Import Normalizer.

Lemma fromkeys_from (l : list string) :
  ∀ keys, NoDup keys →
    ∃ extra,
      fold_left fromkeys_step l keys = keys ++ extra
      ∧ NoDup (keys ++ extra)
      ∧ extra `sublist_of` l
      ∧ (∀ x, x ∈ keys ++ extra ↔ x ∈ keys ∨ x ∈ l).
Proof.
  induction l as [|name l IH]; intros keys Hkeys.
  - exists []. rewrite app_nil_r. split; [done|]. split; [done|]. split; [done|].
    intros x. rewrite elem_of_nil. tauto.
  - cbn [fold_left]. unfold fromkeys_step at 2.
    destruct (decide (name ∈ keys)) as [Hin|Hnotin].
    + destruct (IH keys Hkeys) as (extra & Heq & Hnodup & Hsub & Hel).
      exists extra. split; [done|]. split; [done|]. split; [by apply sublist_cons|].
      intros x. rewrite Hel, elem_of_cons. split; [tauto|].
      intros [?|[->|?]]; tauto.
    + assert (NoDup (keys ++ [name])) as Hkeys'.
      { apply NoDup_app. split; [done|]. split; [|apply NoDup_singleton].
        intros x Hx ->%list_elem_of_singleton. done. }
      destruct (IH (keys ++ [name]) Hkeys') as (extra & Heq & Hnodup & Hsub & Hel).
      exists (name :: extra). rewrite Heq, <- app_assoc. cbn [app].
      rewrite <- app_assoc in Hnodup, Hel. cbn [app] in Hnodup, Hel.
      split; [done|]. split; [done|]. split; [by apply sublist_skip|].
      intros x. rewrite Hel, elem_of_app, !elem_of_cons, elem_of_nil. tauto.
Qed.

Lemma dict_fromkeys_unfold (companies : list string) :
  dict_fromkeys companies = fold_left fromkeys_step companies [].
Proof. done. Qed.

Lemma fromkeys_NoDup (l : list string) :
  ∀ keys, NoDup (keys ++ l) → fold_left fromkeys_step l keys = keys ++ l.
Proof.
  induction l as [|name l IH]; intros keys Hnodup; [by rewrite app_nil_r|].
  cbn [fold_left]. unfold fromkeys_step at 2.
  apply NoDup_app in Hnodup as (Hkeys & Hdisj & Hl).
  rewrite decide_False by (intros Hin; apply (Hdisj name Hin); by left).
  rewrite IH; [by rewrite <- app_assoc|].
  rewrite <- app_assoc. cbn [app]. apply NoDup_app. done.
Qed.

Lemma dict_fromkeys_facts (companies : list string) :
  NoDup (dict_fromkeys companies)
  ∧ dict_fromkeys companies `sublist_of` companies
  ∧ (∀ name, name ∈ dict_fromkeys companies ↔ name ∈ companies)
  ∧ dict_fromkeys (dict_fromkeys companies) = dict_fromkeys companies.
Proof.
  rewrite !dict_fromkeys_unfold.
  destruct (fromkeys_from companies [] (NoDup_nil_2)) as (extra & Heq & Hnodup & Hsub & Hel).
  cbn [app] in *. rewrite Heq.
  split; [done|]. split; [done|]. split.
  - intros name. rewrite Hel, elem_of_nil. tauto.
  - by apply (fromkeys_NoDup extra []).
Qed.

(** X15 *)
Theorem dict_fromkeys_first_occurrences (companies : list string) :
  NoDup (dict_fromkeys companies)
  ∧ dict_fromkeys companies `sublist_of` companies
  ∧ (∀ name, name ∈ dict_fromkeys companies ↔ name ∈ companies)
  ∧ dict_fromkeys (dict_fromkeys companies) = dict_fromkeys companies.
Proof. apply dict_fromkeys_facts. Qed.

Lemma fix_apostrophes_eq (names : list string) :
  fix_apostrophes names = Some (merge_fragments names).
Proof.
  unfold fix_apostrophes.
  by destruct (NormalizerFacts.fix_loop_from names (length names) 0 [] eq_refl) as [H _].
Qed.

Lemma merge_fragments_clean (names : list string) :
  Forall (fun name => is_fragment name = false) (tail names) →
  merge_fragments names = names.
Proof.
  induction names as [|name [|next rest] IH]; [done..|].
  intros Hclean. cbn [tail] in Hclean.
  rewrite NormalizerFacts.merge_fragments_cons2.
  apply Forall_cons in Hclean as [Hnext Hrest]. rewrite Hnext.
  f_equal. by apply IH.
Qed.

(** X16 *)
Theorem repair_leaves_clean_lists_alone (names : list string) :
  Forall (fun name => is_fragment name = false) (tail names) →
  fix_apostrophes names = Some names.
Proof. intros Hclean. by rewrite fix_apostrophes_eq, merge_fragments_clean. Qed.

Lemma merge_fragments_length :
  ∀ (n : nat) (names : list string), (length names ≤ n)%nat →
    (length (merge_fragments names) ≤ length names)%nat
    ∧ (length names ≤ length (merge_fragments names)
                       + length (filter (fun name => is_fragment name = true) names))%nat.
Proof.
  induction n as [|n IH]; intros names Hlen.
  { destruct names; [done|]. cbn in Hlen. lia. }
  destruct names as [|name [|next rest]]; [done|cbn; lia|].
  rewrite NormalizerFacts.merge_fragments_cons2.
  rewrite (filter_cons _ name), (filter_cons _ next). cbn [length] in *.
  destruct (is_fragment next) eqn:Hnext.
  - destruct (IH rest ltac:(lia)) as [H1 H2].
    rewrite (decide_True (P := true = true)) by done.
    destruct (decide (is_fragment name = true)); cbn [length]; lia.
  - destruct (IH (next :: rest) ltac:(cbn; lia)) as [H1 H2].
    rewrite (filter_cons _ next), Hnext in H2.
    rewrite (decide_False (P := false = true)) in H2 |- * by done.
    cbn [length] in *.
    destruct (decide (is_fragment name = true)); cbn [length]; lia.
Qed.

Lemma fragments_NoDup_bound (names : list string) :
  NoDup names →
  (length (filter (fun name => is_fragment name = true) names) ≤ 6)%nat.
Proof.
  intros Hnodup.
  change 6%nat with (length fragment_spellings).
  apply submseteq_length, NoDup_submseteq.
  - by apply NoDup_filter.
  - intros name [Hfrag _]%list_elem_of_filter.
    by apply NormalizerFacts.is_fragment_spelling in Hfrag.
Qed.

(** X17 *)
Theorem at_most_six_repairs (companies : list string) :
  ∃ fixed,
    fix_apostrophes (dict_fromkeys companies) = Some fixed
    ∧ (length fixed ≤ length (dict_fromkeys companies))%nat
    ∧ (length (dict_fromkeys companies) ≤ length fixed + 6)%nat.
Proof.
  exists (merge_fragments (dict_fromkeys companies)).
  split; [apply fix_apostrophes_eq|].
  destruct (merge_fragments_length _ (dict_fromkeys companies) (le_n _)) as [H1 H2].
  split; [done|].
  destruct (dict_fromkeys_facts companies) as [Hnodup _].
  pose proof (fragments_NoDup_bound _ Hnodup). lia.
Qed.

Lemma merge_fragments_origin :
  ∀ (n : nat) (names : list string), (length names ≤ n)%nat →
    Forall (fun fixed => ∃ name, name ∈ names ∧ (fixed = name ∨ fixed = name +:+ "'s"))
           (merge_fragments names).
Proof.
  induction n as [|n IH]; intros names Hlen.
  { destruct names; [constructor|]. cbn in Hlen. lia. }
  destruct names as [|name [|next rest]]; [constructor| |].
  { repeat constructor. exists name. split; [by left|by left]. }
  rewrite NormalizerFacts.merge_fragments_cons2. cbn [length] in Hlen.
  destruct (is_fragment next).
  - constructor.
    + exists name. split; [by left|by right].
    + eapply Forall_impl; [apply (IH rest); lia|].
      intros fixed (x & Hx & Hfixed). exists x. split; [|done]. by do 2 right.
  - constructor.
    + exists name. split; [by left|by left].
    + eapply Forall_impl; [apply (IH (next :: rest)); cbn; lia|].
      intros fixed (x & Hx & Hfixed). exists x. split; [|done]. by right.
Qed.

(** X18 *)
Theorem repair_invents_no_name (names : list string) :
  ∃ fixed,
    fix_apostrophes names = Some fixed
    ∧ Forall (fun f => ∃ name, name ∈ names ∧ (f = name ∨ f = name +:+ "'s")) fixed
    ∧ head fixed = head (merge_fragments names)
    ∧ (length fixed ≤ length names)%nat.
Proof.
  exists (merge_fragments names). split; [apply fix_apostrophes_eq|].
  split; [by apply (merge_fragments_origin (length names))|]. split; [done|].
  by destruct (merge_fragments_length _ names (le_n _)).
Qed.

End NormalizerMore.

(** ** The scrapers *)

Section ScraperFacts.

Context (isdigit : string -> bool).

Lemma classify_from (texts : list string) :
  ∀ companies excluded,
    fold_left (classify_step isdigit) texts (companies, excluded) =
    (companies ++ filter (fun name => exclusion_reason isdigit name = None) texts,
     excluded ++ omap (fun name => pair name <$> exclusion_reason isdigit name) texts).
Proof.
  induction texts as [|name texts IH]; intros companies excluded.
  - by rewrite !app_nil_r.
  - cbn [fold_left classify_step omap list_omap]. rewrite filter_cons.
    destruct (exclusion_reason isdigit name) as [reason|] eqn:Hreason.
    + rewrite IH, decide_False by done. cbn [fmap option_fmap option_map].
      by rewrite <- app_assoc.
    + rewrite IH, decide_True by done. cbn [fmap option_fmap option_map].
      by rewrite <- app_assoc.
Qed.


Lemma ranked_lookup (names : list string) (i : nat) :
  ranked names !! i = (fun name => (Z.of_nat i + 1, name)) <$> names !! i.
Proof. unfold ranked. by rewrite list_lookup_imap. Qed.

Lemma ranked_length (names : list string) : length (ranked names) = length names.
Proof. unfold ranked. by rewrite length_imap. Qed.

Lemma company_column_ranked (names : list string) :
  company_column (ranked names) = names.
Proof.
  apply list_eq. intros i. unfold company_column.
  rewrite list_lookup_fmap, ranked_lookup. by destruct (names !! i).
Qed.

Lemma exclusion_reason_None (name : string) :
  exclusion_reason isdigit name = None ↔
  name ≠ ""
  ∧ (py_len name < 60)%nat
  ∧ (∀ kw, kw ∈ exclude_keywords → contains kw (py_lower name) = false)
  ∧ isdigit (remove_first_dot name) = false
  ∧ String.prefix "by " (py_lower name) = false.
Proof.
  unfold exclusion_reason.
  destruct (String.eqb_spec name "") as [->|Hname].
  { split; [done|]. by intros [? _]. }
  destruct (Nat.leb_spec 60 (py_len name)) as [Hlen|Hlen].
  { split; [done|]. intros (_ & ? & _). lia. }
  destruct (existsb _ exclude_keywords) eqn:Hkw.
  { split; [done|]. intros (_ & _ & Hno & _).
    apply existsb_exists in Hkw as (kw & Hin & Hkw).
    apply list_elem_of_In in Hin. by rewrite (Hno kw Hin) in Hkw. }
  destruct (isdigit (remove_first_dot name)) eqn:Hdigit.
  { split; [done|]. by intros (_ & _ & _ & ? & _). }
  destruct (String.prefix "by " (py_lower name)) eqn:Hby.
  { split; [done|]. by intros (_ & _ & _ & _ & ?). }
  split; [|done]. intros _. split; [done|]. split; [done|]. split; [|done].
  intros kw Hin. apply list_elem_of_In in Hin.
  destruct (contains kw (py_lower name)) eqn:Hc; [|done].
  assert (existsb (fun kw => contains kw (py_lower name)) exclude_keywords = true) as Hex
    by (apply existsb_exists; eauto).
  by rewrite Hex in Hkw.
Qed.



Lemma excluded_names (texts : list string) :
  (omap (fun name => pair name <$> exclusion_reason isdigit name) texts).*1 =
  filter (fun name => ¬ exclusion_reason isdigit name = None) texts.
Proof.
  induction texts as [|name texts IH]; [done|].
  cbn [omap list_omap]. rewrite filter_cons.
  destruct (exclusion_reason isdigit name) as [reason|] eqn:Hreason.
  - rewrite decide_True by done. cbn. by rewrite IH.
  - rewrite decide_False by (intros H; by apply H). done.
Qed.

Lemma excluded_reasons (texts : list string) :
  Forall (fun nr : string * string => exclusion_reason isdigit nr.1 = Some nr.2)
    (omap (fun name => pair name <$> exclusion_reason isdigit name) texts).
Proof.
  apply Forall_forall. intros [name reason] (text & _ & Hreason)%list_elem_of_omap.
  destruct (exclusion_reason isdigit text) as [r|] eqn:Htext; [|done].
  cbn in Hreason. by injection Hreason as <- <-.
Qed.

(** X19 *)
Theorem forbes_loop_sorts_every_text (texts : list string) :
  ∃ companies excluded,
    fold_left (classify_step isdigit) texts ([], []) = (companies, excluded)
    ∧ companies `sublist_of` texts
    ∧ excluded.*1 `sublist_of` texts
    ∧ companies ++ excluded.*1 ≡ₚ texts
    ∧ Forall (fun name =>
        name ≠ ""
        ∧ (py_len name < 60)%nat
        ∧ (∀ kw, kw ∈ exclude_keywords → contains kw (py_lower name) = false)
        ∧ isdigit (remove_first_dot name) = false
        ∧ String.prefix "by " (py_lower name) = false) companies
    ∧ Forall (fun nr : string * string =>
        nr.2 ∈ ["empty"; "too long"; "excluded keyword"; "numeric"; "starts with 'by '"]
        ∧ (nr.1 = "" ↔ nr.2 = "empty")
        ∧ ((60 ≤ py_len nr.1)%nat ↔ nr.2 = "too long")) excluded.
Proof.
  eexists _, _. split; [apply classify_from|]. cbn [app].
  rewrite excluded_names.
  split; [apply sublist_filter|]. split; [apply sublist_filter|].
  split; [apply filter_app_complement|]. split.
  - apply Forall_forall. intros name [Hnone _]%list_elem_of_filter.
    by apply exclusion_reason_None.
  - eapply Forall_impl; [apply excluded_reasons|].
    intros [name reason]. cbn [fst snd]. unfold exclusion_reason.
    destruct (String.eqb_spec name "") as [->|Hname].
    { intros [= <-]. split; [by_computation|]. split; [done|].
      split; [|done]. unfold py_len. cbn. lia. }
    destruct (Nat.leb_spec 60 (py_len name)) as [Hlen|Hlen].
    { intros [= <-]. split; [by_computation|]. split; [|done]. by split. }
    repeat match goal with
           | |- (if ?b then _ else _) = _ → _ => destruct b
           end; intros [= <-];
      (split; [by_computation|]; split; (split; [done || lia|done])).
Qed.


Lemma forbes_body_run (texts : list string) :
  ∃ (middle : list scrape_message),
    forbes_body isdigit texts =
      (Returned (ranked (take 100 (Normalizer.merge_fragments (Normalizer.dict_fromkeys
          (filter (fun name => exclusion_reason isdigit name = None) texts))))),
       TagsFound "Forbes" (length texts) :: middle
         ++ [TopCompanies "Forbes"
               (length (take 100 (Normalizer.merge_fragments (Normalizer.dict_fromkeys
                  (filter (fun name => exclusion_reason isdigit name = None) texts)))))]).
Proof.
  unfold forbes_body. rewrite classify_from. cbn [app].
  rewrite NormalizerMore.fix_apostrophes_eq.
  generalize (Normalizer.merge_fragments (Normalizer.dict_fromkeys
    (filter (fun name => exclusion_reason isdigit name = None) texts))).
  generalize (omap (fun name => pair name <$> exclusion_reason isdigit name) texts).
  intros excluded fixed. rewrite ranked_length.
  generalize (TopCompanies "Forbes" (length (take 100 fixed))). intros final.
  generalize (excluded_report excluded). intros report.
  generalize (ValidCompanies (length fixed)) (FewerThanExpected "Forbes" (length fixed)).
  intros valid fewer.
  destruct (length fixed <? 100)%nat.
  - exists ([valid; fewer] ++ report). by rewrite <- !app_assoc.
  - exists ([valid] ++ report). by rewrite <- !app_assoc.
Qed.

(** X20 *)
Theorem forbes_ranking_shape (texts : list string) :
  ∃ names out,
    get_forbes_employers isdigit (Returned texts) = (Returned (ranked names), out)
    ∧ (length names ≤ 100)%nat
    ∧ company_column (ranked names) = names
    ∧ (∀ i rank name, ranked names !! i = Some (rank, name) → rank = Z.of_nat i + 1)
    ∧ Forall (fun name =>
        name ≠ ""
        ∧ ∃ text, text ∈ texts ∧ exclusion_reason isdigit text = None
                  ∧ (name = text ∨ name = text +:+ "'s")) names
    ∧ head out = Some (TagsFound "Forbes" (length texts))
    ∧ last out = Some (TopCompanies "Forbes" (length names)).
Proof.
  destruct (forbes_body_run texts) as (out & Hrun).
  set (kept := filter (fun name => exclusion_reason isdigit name = None) texts) in *.
  set (unique := Normalizer.dict_fromkeys kept) in *.
  eexists _, _. unfold get_forbes_employers. rewrite Hrun. cbn [or_empty_table].
  split; [done|]. split; [rewrite length_take; lia|].
  split; [apply company_column_ranked|]. split.
  { intros i rank name. rewrite ranked_lookup.
    destruct (_ !! i); [|done]. by intros [= <- _]. }
  split.
  - apply Forall_take.
    eapply Forall_impl;
      [apply (NormalizerMore.merge_fragments_origin (length unique)); lia|].
    intros name (text & Hin & Hname). cbn beta in *.
    destruct (NormalizerMore.dict_fromkeys_facts kept) as (_ & _ & Hel & _).
    apply Hel in Hin.
    apply list_elem_of_filter in Hin as [Hnone Hin].
    assert (text ≠ "") as Htext.
    { by apply exclusion_reason_None in Hnone as [? _]. }
    split; [|by exists text].
    destruct Hname as [->| ->]; [done|]. by destruct text.
  - split; [done|]. by rewrite app_comm_cons, last_app.
Qed.

End ScraperFacts.
